(** * Line filters of the summary-cleaning scripts

  Shallow embedding of
    - [src/clean_summary.py]  (drops blank lines and lines starting with "Bash"),
    - [src/scripts/deprecated/remove_bracket_lines.py]
      (drops lines starting with the glyph U+23BF),
  each with its [__main__] block, together with the properties listed for
  them.

  A Python [str] is a sequence of Unicode code points, so a line is a
  [list N]; a file system is a finite map from paths to the text of each
  file, as text mode reads it (decoded, every line end a line feed). What
  the host can do to a call (refuse an [open], hold bytes that are no
  UTF-8, store other line ends, fail to encode a printed line) is modelled
  apart, in [Host], for the properties that turn on it. *)

From Stdlib Require Import NArith List Ascii String.
From stdpp Require Import base decidable option list strings gmap pretty.

Local Open Scope list_scope.

(** ** The Python builtins the two scripts call *)

Module Py.

Local Open Scope N_scope.

(** A code point, and a [str] as the sequence of its code points. *)
Definition char : Type := N.
Definition str : Type := list char.

(** An ASCII literal of the source, as code points. *)
Definition lit (s : string) : str :=
  List.map N_of_ascii (list_ascii_of_string s).

(** The line feed, written [\n] in Python literals. *)
Definition LF : char := 10.

(** [str.isspace] on one code point: the interpreter's whitespace table
    (TAB..CR, FS..US, SPACE, NEL, NBSP, OGHAM SPACE, EN QUAD..HAIR SPACE,
    LINE/PARAGRAPH SEPARATOR, NNBSP, MMSP, IDEOGRAPHIC SPACE). *)
Definition isspace (c : char) : bool :=
  ((0x09 <=? c) && (c <=? 0x0D))
  || ((0x1C <=? c) && (c <=? 0x20))
  || (c =? 0x85) || (c =? 0xA0) || (c =? 0x1680)
  || ((0x2000 <=? c) && (c <=? 0x200A))
  || (c =? 0x2028) || (c =? 0x2029) || (c =? 0x202F)
  || (c =? 0x205F) || (c =? 0x3000).

(** [s.lstrip()]: drop the leading run of whitespace. *)
Fixpoint lstrip (s : str) : str :=
  match s with
  | [] => []
  | c :: s' => if isspace c then lstrip s' else s
  end.

(** [s.rstrip()]: drop the trailing run of whitespace. *)
Fixpoint rstrip (s : str) : str :=
  match s with
  | [] => []
  | c :: s' =>
      match rstrip s' with
      | [] => if isspace c then [] else [c]
      | r => c :: r
      end
  end.

(** [s.strip()]: both ends. *)
Definition strip (s : str) : str := rstrip (lstrip s).

(** [s.startswith(prefix)]. *)
Fixpoint startswith (s prefix : str) {struct prefix} : bool :=
  match prefix with
  | [] => true
  | p :: prefix' =>
      match s with
      | [] => false
      | c :: s' => (c =? p) && startswith s' prefix'
      end
  end.

(** [len(xs)]. *)
Definition len {A} (xs : list A) : nat := length xs.

(** Text of a file cut into lines, each keeping its terminator; only the
    last line may lack one ([f.readlines()] in text mode). *)
Fixpoint readlines (text : str) : list str :=
  match text with
  | [] => []
  | c :: text' =>
      if c =? LF then [c] :: readlines text'
      else match readlines text' with
           | [] => [[c]]
           | l :: ls => (c :: l) :: ls
           end
  end.

(** [f.writelines(lines)]: the lines one after the other, nothing between. *)
Definition writelines (lines : list str) : str := concat lines.

(** Files by path, each with its decoded text. *)
Abbreviation filesystem := (gmap string str).

(** What [open] raises when the path names no file. *)
Inductive exn : Type :=
| FileNotFoundError (path : string).

(** [with open(path, 'r') as f: f.readlines()]. *)
Definition open_readlines (fs : filesystem) (path : string) : exn + list str :=
  match fs !! path with
  | Some text => inr (readlines text)
  | None => inl (FileNotFoundError path)
  end.

(** [with open(path, 'w') as f: f.writelines(lines)]: the file is created or
    truncated, then filled. *)
Definition open_writelines (fs : filesystem) (path : string) (lines : list str)
  : filesystem :=
  <[path := writelines lines]> fs.

(** [f"{n}"] for an integer. *)
Definition fmt (n : nat) : string := pretty n.

End Py.

Import Py.

(** ** [os.path] as the [__main__] blocks use it (POSIX flavour) *)

Module OsPath.

Local Open Scope string_scope.

(** The separator ['/']. *)
Definition sep : ascii := "/"%char.

(** [p[:p.rfind('/') + 1]]: the path up to and including its last separator,
    empty when it has none. *)
Fixpoint upto_last_sep (p : string) : string :=
  match p with
  | EmptyString => EmptyString
  | String c p' =>
      match upto_last_sep p' with
      | EmptyString => if Ascii.eqb c sep then String c EmptyString else EmptyString
      | head => String c head
      end
  end.

(** [head == sep * len(head)]. *)
Fixpoint all_sep (head : string) : bool :=
  match head with
  | EmptyString => true
  | String c head' => Ascii.eqb c sep && all_sep head'
  end.

(** [head.rstrip('/')]. *)
Fixpoint rstrip_sep (head : string) : string :=
  match head with
  | EmptyString => EmptyString
  | String c head' =>
      match rstrip_sep head' with
      | EmptyString => if Ascii.eqb c sep then EmptyString else String c EmptyString
      | r => String c r
      end
  end.

(** [os.path.dirname(p)]. *)
Definition dirname (p : string) : string :=
  let head := upto_last_sep p in
  if negb (String.eqb head "") && negb (all_sep head) then rstrip_sep head
  else head.

(** [path.endswith('/')]. *)
Fixpoint endswith_sep (path : string) : bool :=
  match path with
  | EmptyString => false
  | String c EmptyString => Ascii.eqb c sep
  | String _ path' => endswith_sep path'
  end.

(** [b.startswith('/')]. *)
Definition startswith_sep (b : string) : bool :=
  match b with
  | String c _ => Ascii.eqb c sep
  | EmptyString => false
  end.

(** [os.path.join(a, b)] for one joined component. *)
Definition join (a b : string) : string :=
  if startswith_sep b then b
  else if String.eqb a "" || endswith_sep a then a ++ b
  else a ++ String sep b.

End OsPath.

(** ** [src/clean_summary.py] *)

Module CleanSummary.

(** The variables the loop updates. *)
Record loop_state : Type := LoopState {
  cleaned_lines : list str;
  empty_removed : nat;
  bash_removed : nat
}.

(** Their values before the loop. *)
Definition loop_init : loop_state :=
  {| cleaned_lines := []; empty_removed := 0; bash_removed := 0 |}.

(** One iteration of [for line in lines]; the empty literal [''] is [[]]. *)
Definition loop_body (st : loop_state) (line : str) : loop_state :=
  if bool_decide (strip line = []) then
    {| cleaned_lines := cleaned_lines st;
       empty_removed := empty_removed st + 1;
       bash_removed := bash_removed st |}
  else if startswith (lstrip line) (lit "Bash") then
    {| cleaned_lines := cleaned_lines st;
       empty_removed := empty_removed st;
       bash_removed := bash_removed st + 1 |}
  else
    {| cleaned_lines := cleaned_lines st ++ [line];
       empty_removed := empty_removed st;
       bash_removed := bash_removed st |}.

(** The whole loop. *)
Definition filter_lines (lines : list str) : loop_state :=
  fold_left loop_body lines loop_init.

(** The lines printed at the end, from the values the f-strings show. *)
Definition print_summary (original_count empty_removed bash_removed final_count : nat)
    (output_path : string) : list string :=
  [ "Cleaning complete!";
    "Original lines: " +:+ fmt original_count;
    "Empty lines removed: " +:+ fmt empty_removed;
    "Lines starting with 'Bash' removed: " +:+ fmt bash_removed;
    "Final lines: " +:+ fmt final_count;
    "Output saved to: " +:+ output_path ]%string.

(** [clean_summary_file(input_path, output_path=None)]: the file system
    after the call and the printed lines, or the exception raised. A missing
    [output_path] stands for [input_path]. *)
Definition clean_summary_file (input_path : string) (output_path : option string)
    (fs : filesystem) : exn + (filesystem * list string) :=
  let output_path := default input_path output_path in
  match open_readlines fs input_path with
  | inl e => inl e
  | inr lines =>
      let original_count := len lines in
      let st := filter_lines lines in
      let fs' := open_writelines fs output_path (cleaned_lines st) in
      inr (fs', print_summary original_count (empty_removed st) (bash_removed st)
                  (len (cleaned_lines st)) output_path)
  end.

(** The [__main__] block, [script_file] being [os.path.abspath(__file__)]. *)
Definition script_dir (script_file : string) : string :=
  OsPath.dirname script_file.

Definition input_file (script_file : string) : string :=
  OsPath.join (script_dir script_file) "summary.md".

Definition output_file (script_file : string) : string :=
  OsPath.join (script_dir script_file) "summary_cleaned.md".

Definition main (script_file : string) (fs : filesystem)
  : exn + (filesystem * list string) :=
  clean_summary_file (input_file script_file) (Some (output_file script_file)) fs.

End CleanSummary.


(** ** [src/scripts/deprecated/remove_bracket_lines.py] *)

Module RemoveBracketLines.

(** The one-character literal ['⎿'] of the source: code point U+23BF. *)
Definition bracket : str := [0x23BF%N].

(** The variables the loop updates. *)
Record loop_state : Type := LoopState {
  cleaned_lines : list str;
  removed_count : nat
}.

(** Their values before the loop. *)
Definition loop_init : loop_state :=
  {| cleaned_lines := []; removed_count := 0 |}.

(** One iteration of [for line in lines]. *)
Definition loop_body (st : loop_state) (line : str) : loop_state :=
  if startswith (lstrip line) bracket then
    {| cleaned_lines := cleaned_lines st;
       removed_count := removed_count st + 1 |}
  else
    {| cleaned_lines := cleaned_lines st ++ [line];
       removed_count := removed_count st |}.

(** The whole loop. *)
Definition filter_lines (lines : list str) : loop_state :=
  fold_left loop_body lines loop_init.

(** The lines printed at the end, from the values the f-strings show (the
    glyph inside the third line is kept as its UTF-8 bytes). *)
Definition print_summary (original_count removed_count final_count : nat)
    (output_path : string) : list string :=
  [ "Cleaning complete!";
    "Original lines: " +:+ fmt original_count;
    "Lines starting with '⎿' removed: " +:+ fmt removed_count;
    "Final lines: " +:+ fmt final_count;
    "Output saved to: " +:+ output_path ]%string.

(** [clean_summary_file(input_path, output_path=None)]: the file system
    after the call and the printed lines, or the exception raised. A missing
    [output_path] stands for [input_path]. *)
Definition clean_summary_file (input_path : string) (output_path : option string)
    (fs : filesystem) : exn + (filesystem * list string) :=
  let output_path := default input_path output_path in
  match open_readlines fs input_path with
  | inl e => inl e
  | inr lines =>
      let original_count := len lines in
      let st := filter_lines lines in
      let fs' := open_writelines fs output_path (cleaned_lines st) in
      inr (fs', print_summary original_count (removed_count st)
                  (len (cleaned_lines st)) output_path)
  end.

(** The [__main__] block, [script_file] being [os.path.abspath(__file__)]. *)
Definition script_dir (script_file : string) : string :=
  OsPath.dirname script_file.

Definition input_file (script_file : string) : string :=
  OsPath.join (script_dir script_file) "summary.md".

Definition output_file (script_file : string) : string :=
  OsPath.join (script_dir script_file) "summary_cleaned.md".

Definition main (script_file : string) (fs : filesystem)
  : exn + (filesystem * list string) :=
  clean_summary_file (input_file script_file) (Some (output_file script_file)) fs.

End RemoveBracketLines.

(** ** The predicates as the specification words them *)

Module Spec.

(** "Line is empty or all-whitespace." *)
Definition blank (line : str) : Prop :=
  Forall (λ c, isspace c = true) line.

(** "After removing only leading whitespace, the remainder begins with the
    exact token": some whitespace, then the token, then anything. *)
Definition begins_with (token line : str) : Prop :=
  ∃ ws rest, Forall (λ c, isspace c = true) ws ∧ line = ws ++ token ++ rest.

(** Variant A: "true iff [line.strip() == ''] OR
    [line.lstrip().startswith("Bash")]". *)
Definition predicate_A (line : str) : bool :=
  bool_decide (strip line = []) || startswith (lstrip line) (lit "Bash").

(** Variant B: "true iff [line.lstrip().startswith("⎿")]". *)
Definition predicate_B (line : str) : bool :=
  startswith (lstrip line) [0x23BF%N].

(** The two reasons of Variant A, the blank check first. *)
Definition reason_empty (line : str) : bool :=
  bool_decide (strip line = []).

Definition reason_bash (line : str) : bool :=
  negb (bool_decide (strip line = [])) && startswith (lstrip line) (lit "Bash").

(** The lines a predicate keeps, and how many it removes. *)
Definition kept (predicate : str → bool) (lines : list str) : list str :=
  List.filter (λ line, negb (predicate line)) lines.

Definition removed (predicate : str → bool) (lines : list str) : nat :=
  length (List.filter predicate lines).

End Spec.

(** ** Lines as a file holds them *)

(** A line that ends in its terminator and has none before. *)
Definition terminated (l : str) : Prop :=
  ∃ body, l = body ++ [LF] ∧ LF ∉ body.

(** The final run of a text that does not end in a terminator. *)
Definition unterminated (l : str) : Prop :=
  l ≠ [] ∧ LF ∉ l.

(** Line sequences that some text cuts into: all lines terminated, but
    possibly the last. *)
Inductive file_lines : list str → Prop :=
| file_lines_nil : file_lines []
| file_lines_last l : unterminated l → file_lines [l]
| file_lines_cons l ls : terminated l → file_lines ls → file_lines (l :: ls).

(** ** The two worked inputs *)

(** The input of the Variant A example, as lines and as the text of a file. *)
Definition example_A_lines : list str :=
  [ lit "Bash ls" ++ [LF];
    [LF];
    lit "   " ++ [LF];
    lit "ok" ++ [LF];
    lit "  Bash echo hi" ++ [LF] ].

Definition example_A_text : str := writelines example_A_lines.

(** The input of the Variant B example. *)
Definition example_B_lines : list str :=
  [ RemoveBracketLines.bracket ++ lit " result" ++ [LF];
    lit "normal line" ++ [LF];
    lit "  " ++ RemoveBracketLines.bracket ++ lit " indented result" ++ [LF] ].

Definition example_B_text : str := writelines example_B_lines.

(** ** The host the scripts run on

    The calls above take every path as a readable and writable text file.
    Here the operating system may refuse an [open], a file may hold bytes
    that are no UTF-8, line ends of a file are translated on reading, and
    the terminal may be unable to encode what is printed. POSIX flavour:
    [os.linesep] is the line feed, so writing translates nothing. *)

Module Host.

Local Open Scope N_scope.

(** The carriage return, [\r]. *)
Definition CR : char := 13.

(** Reading in text mode with [newline=None], as the incremental decoder
    does it: [\r\n] and a lone [\r] both come out as [\n]; [pendingcr] tells
    that the code point before was a [\r], already given out as [\n]. *)
Fixpoint translate (pendingcr : bool) (raw : str) : str :=
  match raw with
  | [] => []
  | c :: raw' =>
      if c =? CR then LF :: translate true raw'
      else if (c =? LF) && pendingcr then translate false raw'
      else c :: translate false raw'
  end.

Definition universal_newlines (raw : str) : str := translate false raw.

(** The bytes of a regular file: the UTF-8 of some code points, line ends
    as stored, or bytes that are not UTF-8. *)
Inductive content : Type :=
| Utf8 (raw : str)
| NotUtf8.

(** The two modes the scripts open files in. *)
Inductive mode : Type := Read | Write.

(** The [OSError]s an [open] can answer with. *)
Inductive oserror : Type :=
| FileNotFound
| IsADirectory
| NotADirectory
| PermissionDenied.

(** What a call can raise. *)
Inductive exn : Type :=
| OSError (kind : oserror) (path : string)
| UnicodeDecodeError
| UnicodeEncodeError.

(** A host: the regular files by path, the opens the operating system
    refuses (a directory at the path, no directory to create the file in,
    an empty path, no permission), and the lines the encoding of
    [sys.stdout] can encode. *)
Record host : Type := {
  disk : gmap string content;
  refuses : mode → string → option oserror;
  stdout_accepts : string → bool
}.

(** [with open(path, 'r', encoding='utf-8') as f: f.readlines()]. *)
Definition open_readlines (h : host) (path : string) : exn + list str :=
  match refuses h Read path with
  | Some kind => inl (OSError kind path)
  | None =>
      match disk h !! path with
      | None => inl (OSError FileNotFound path)
      | Some NotUtf8 => inl UnicodeDecodeError
      | Some (Utf8 raw) => inr (readlines (universal_newlines raw))
      end
  end.

(** [with open(path, 'w', encoding='utf-8') as f: f.writelines(lines)]:
    the disk afterwards, or the error of the [open]. *)
Definition open_writelines (h : host) (path : string) (lines : list str)
  : exn + gmap string content :=
  match refuses h Write path with
  | Some kind => inl (OSError kind path)
  | None => inr (<[path := Utf8 (writelines lines)]> (disk h))
  end.

(** A run of [print] calls: the lines that came out, and the error of the
    first line the terminal cannot encode, the later ones never reached. *)
Fixpoint print_lines (accepts : string → bool) (lines : list string)
  : list string * option exn :=
  match lines with
  | [] => ([], None)
  | line :: lines' =>
      if accepts line then
        let '(printed, raised) := print_lines accepts lines' in
        (line :: printed, raised)
      else ([], Some UnicodeEncodeError)
  end.

(** The text a file reads as, if it can be decoded. *)
Definition text_of (c : content) : option str :=
  match c with
  | Utf8 raw => Some (universal_newlines raw)
  | NotUtf8 => None
  end.

(** How a call ends: the disk it leaves, what it printed, what it raised. *)
Record outcome : Type := Outcome {
  disk_after : gmap string content;
  printed : list string;
  raised : option exn
}.

(** A terminal that encodes ASCII only, strictly. *)
Fixpoint strict_ascii (line : string) : bool :=
  match line with
  | EmptyString => true
  | String a line' => (N_of_ascii a <? 128) && strict_ascii line'
  end.

(** A terminal that encodes everything (UTF-8). *)
Definition utf8_terminal (line : string) : bool := true.

(** An operating system that refuses only to create a file at the empty
    path. *)
Definition refuses_empty_path (m : mode) (path : string) : option oserror :=
  match m with
  | Write => if String.eqb path "" then Some FileNotFound else None
  | Read => None
  end.

End Host.

(** [clean_summary_file] of [src/clean_summary.py] on a host. *)
Module CleanSummaryHost.

Definition clean_summary_file (h : Host.host) (input_path : string)
    (output_path : option string) : Host.outcome :=
  let output_path := default input_path output_path in
  match Host.open_readlines h input_path with
  | inl e => Host.Outcome (Host.disk h) [] (Some e)
  | inr lines =>
      let original_count := len lines in
      let st := CleanSummary.filter_lines lines in
      match Host.open_writelines h output_path (CleanSummary.cleaned_lines st) with
      | inl e => Host.Outcome (Host.disk h) [] (Some e)
      | inr disk' =>
          let '(printed, raised) :=
            Host.print_lines (Host.stdout_accepts h)
              (CleanSummary.print_summary original_count
                 (CleanSummary.empty_removed st) (CleanSummary.bash_removed st)
                 (len (CleanSummary.cleaned_lines st)) output_path) in
          Host.Outcome disk' printed raised
      end
  end.

End CleanSummaryHost.

(** [clean_summary_file] of [src/scripts/deprecated/remove_bracket_lines.py]
    on a host. *)
Module RemoveBracketLinesHost.

Definition clean_summary_file (h : Host.host) (input_path : string)
    (output_path : option string) : Host.outcome :=
  let output_path := default input_path output_path in
  match Host.open_readlines h input_path with
  | inl e => Host.Outcome (Host.disk h) [] (Some e)
  | inr lines =>
      let original_count := len lines in
      let st := RemoveBracketLines.filter_lines lines in
      match Host.open_writelines h output_path
              (RemoveBracketLines.cleaned_lines st) with
      | inl e => Host.Outcome (Host.disk h) [] (Some e)
      | inr disk' =>
          let '(printed, raised) :=
            Host.print_lines (Host.stdout_accepts h)
              (RemoveBracketLines.print_summary original_count
                 (RemoveBracketLines.removed_count st)
                 (len (RemoveBracketLines.cleaned_lines st)) output_path) in
          Host.Outcome disk' printed raised
      end
  end.

End RemoveBracketLinesHost.

(** ** Hosts for the worked runs *)

(** The Variant A example stored with [\r\n] line ends. *)
Definition example_A_crlf : str :=
  lit "Bash ls" ++ [Host.CR; LF] ++ [Host.CR; LF] ++ lit "   " ++ [Host.CR; LF]
  ++ lit "ok" ++ [Host.CR; LF] ++ lit "  Bash echo hi" ++ [Host.CR; LF].

(** A host with a UTF-8 terminal, where only the empty path cannot be
    written. *)
Definition example_host (files : gmap string Host.content) : Host.host :=
  {| Host.disk := files;
     Host.refuses := Host.refuses_empty_path;
     Host.stdout_accepts := Host.utf8_terminal |}.

(** The same with a terminal that encodes ASCII only. *)
Definition example_ascii_host (files : gmap string Host.content) : Host.host :=
  {| Host.disk := files;
     Host.refuses := Host.refuses_empty_path;
     Host.stdout_accepts := Host.strict_ascii |}.

(** ** Runs that complete *)

(** A run of Variant A on host [h] that wrote [written] at [output_path],
    printed the summary of these counts and raised nothing. *)
Definition completed_A (h : Host.host) (output_path : string) (r : Host.outcome)
    (written : str) (original_count empty_removed bash_removed final_count : nat)
  : Prop :=
  Host.disk_after r = <[output_path := Host.Utf8 written]> (Host.disk h)
  ∧ Host.printed r
    = CleanSummary.print_summary original_count empty_removed bash_removed
        final_count output_path
  ∧ Host.raised r = None.

(** The same for Variant B. *)
Definition completed_B (h : Host.host) (output_path : string) (r : Host.outcome)
    (written : str) (original_count removed_count final_count : nat) : Prop :=
  Host.disk_after r = <[output_path := Host.Utf8 written]> (Host.disk h)
  ∧ Host.printed r
    = RemoveBracketLines.print_summary original_count removed_count
        final_count output_path
  ∧ Host.raised r = None.

(** ** Facts on the builtins *)

Section Builtins.

Implicit Types (s p r : str) (c : char).

Lemma lstrip_split s :
  ∃ ws, Forall (λ c, isspace c = true) ws ∧ s = ws ++ lstrip s.
Proof.
  induction s as [|c s [ws [Hws Heq]]]; simpl.
  - by exists [].
  - destruct (isspace c) eqn:Hc.
    + exists (c :: ws). split; [by constructor|]. simpl. by f_equal.
    + by exists [].
Qed.

Lemma lstrip_head s c r : lstrip s = c :: r → isspace c = false.
Proof.
  induction s as [|d s IH]; simpl; [done|].
  destruct (isspace d) eqn:Hd; [done|]. by intros [= <- _].
Qed.

Lemma lstrip_app_space ws s :
  Forall (λ c, isspace c = true) ws → lstrip (ws ++ s) = lstrip s.
Proof. induction 1 as [|c ws Hc _ IH]; simpl; [done|]. by rewrite Hc. Qed.

Lemma lstrip_nonspace c s : isspace c = false → lstrip (c :: s) = c :: s.
Proof. simpl. by intros ->. Qed.

Lemma lstrip_nil_iff s : lstrip s = [] ↔ Forall (λ c, isspace c = true) s.
Proof.
  induction s as [|c s IH]; simpl; [done|].
  destruct (isspace c) eqn:Hc.
  - rewrite IH. split; [by constructor|by inversion 1].
  - split; [done|]. inversion 1; congruence.
Qed.

Lemma rstrip_nil_iff s : rstrip s = [] ↔ Forall (λ c, isspace c = true) s.
Proof.
  induction s as [|c s IH]; simpl; [done|].
  destruct (rstrip s) as [|d r] eqn:Hr.
  - destruct (isspace c) eqn:Hc.
    + split; [intros _; constructor; [done|by apply IH]|done].
    + split; [done|]. inversion 1; congruence.
  - split; [done|]. inversion 1 as [|? ? _ Hs]. by apply IH in Hs.
Qed.

Lemma rstrip_nonspace_head c s : isspace c = false → rstrip (c :: s) ≠ [].
Proof.
  intros Hc H. apply rstrip_nil_iff in H. inversion H; congruence.
Qed.

Lemma strip_nil_iff s : strip s = [] ↔ Forall (λ c, isspace c = true) s.
Proof.
  unfold strip. split.
  - intros H. destruct (lstrip s) as [|c r] eqn:Hl.
    + by apply lstrip_nil_iff.
    + apply lstrip_head in Hl. by apply rstrip_nonspace_head in H.
  - intros H. apply lstrip_nil_iff in H. by rewrite H.
Qed.

Lemma startswith_iff s p : startswith s p = true ↔ ∃ r, s = p ++ r.
Proof.
  revert s. induction p as [|a p IH]; intros s; simpl.
  - split; [by exists s|done].
  - destruct s as [|c s]; simpl.
    + split; [done|by intros [r Hr]].
    + rewrite andb_true_iff, N.eqb_eq, IH. split.
      * intros [-> [r ->]]. by exists r.
      * intros [r [= -> ->]]. eauto.
Qed.

Lemma startswith_nil p : p ≠ [] → startswith [] p = false.
Proof. by destruct p. Qed.

End Builtins.

(** ** The loops, as filters *)

Section Loops.

Implicit Types (line : str) (lines : list str).

Lemma kept_cons P line lines :
  Spec.kept P (line :: lines)
  = if P line then Spec.kept P lines else line :: Spec.kept P lines.
Proof. unfold Spec.kept. simpl. by destruct (P line). Qed.

Lemma removed_cons P line lines :
  Spec.removed P (line :: lines)
  = if P line then S (Spec.removed P lines) else Spec.removed P lines.
Proof. unfold Spec.removed. simpl. by destruct (P line). Qed.

Lemma kept_removed_length P lines :
  length (Spec.kept P lines) + Spec.removed P lines = length lines.
Proof.
  induction lines as [|line lines IH]; [done|].
  rewrite kept_cons, removed_cons. destruct (P line); simpl; lia.
Qed.

(** Variant A from any state: what the loop adds to each variable. *)
Lemma loop_A_from lines (st : CleanSummary.loop_state) :
  fold_left CleanSummary.loop_body lines st
  = {| CleanSummary.cleaned_lines :=
         CleanSummary.cleaned_lines st ++ Spec.kept Spec.predicate_A lines;
       CleanSummary.empty_removed :=
         CleanSummary.empty_removed st + Spec.removed Spec.reason_empty lines;
       CleanSummary.bash_removed :=
         CleanSummary.bash_removed st + Spec.removed Spec.reason_bash lines |}.
Proof.
  revert st. induction lines as [|line lines IH]; intros [cl er br];
    cbn [fold_left].
  - unfold Spec.kept, Spec.removed. simpl. by rewrite app_nil_r, !Nat.add_0_r.
  - rewrite IH, kept_cons, !removed_cons.
    unfold CleanSummary.loop_body, Spec.predicate_A, Spec.reason_empty,
      Spec.reason_bash.
    destruct (bool_decide (strip line = []));
      [|destruct (startswith (lstrip line) (lit "Bash"))];
      cbn [CleanSummary.cleaned_lines CleanSummary.empty_removed
           CleanSummary.bash_removed orb andb negb];
      f_equal; try lia.
    by rewrite <- app_assoc.
Qed.

Lemma filter_lines_A lines :
  CleanSummary.filter_lines lines
  = {| CleanSummary.cleaned_lines := Spec.kept Spec.predicate_A lines;
       CleanSummary.empty_removed := Spec.removed Spec.reason_empty lines;
       CleanSummary.bash_removed := Spec.removed Spec.reason_bash lines |}.
Proof. unfold CleanSummary.filter_lines. by rewrite loop_A_from. Qed.

(** Variant B from any state. *)
Lemma loop_B_from lines (st : RemoveBracketLines.loop_state) :
  fold_left RemoveBracketLines.loop_body lines st
  = {| RemoveBracketLines.cleaned_lines :=
         RemoveBracketLines.cleaned_lines st ++ Spec.kept Spec.predicate_B lines;
       RemoveBracketLines.removed_count :=
         RemoveBracketLines.removed_count st + Spec.removed Spec.predicate_B lines |}.
Proof.
  revert st. induction lines as [|line lines IH]; intros [cl rc];
    cbn [fold_left].
  - unfold Spec.kept, Spec.removed. simpl. by rewrite app_nil_r, Nat.add_0_r.
  - rewrite IH, kept_cons, removed_cons.
    unfold RemoveBracketLines.loop_body, Spec.predicate_B,
      RemoveBracketLines.bracket.
    destruct (startswith (lstrip line) [0x23BF%N]);
      cbn [RemoveBracketLines.cleaned_lines RemoveBracketLines.removed_count];
      f_equal; try lia.
    by rewrite <- app_assoc.
Qed.

Lemma filter_lines_B lines :
  RemoveBracketLines.filter_lines lines
  = {| RemoveBracketLines.cleaned_lines := Spec.kept Spec.predicate_B lines;
       RemoveBracketLines.removed_count := Spec.removed Spec.predicate_B lines |}.
Proof. unfold RemoveBracketLines.filter_lines. by rewrite loop_B_from. Qed.

(** The two reasons of Variant A split the removed lines. *)
Lemma removed_A_split lines :
  Spec.removed Spec.reason_empty lines + Spec.removed Spec.reason_bash lines
  = Spec.removed Spec.predicate_A lines.
Proof.
  induction lines as [|line lines IH]; [done|].
  rewrite !removed_cons, <- IH.
  unfold Spec.reason_empty at 1, Spec.reason_bash at 1, Spec.predicate_A at 1.
  destruct (bool_decide (strip line = [])),
    (startswith (lstrip line) (lit "Bash")); cbn [orb andb negb]; lia.
Qed.

End Loops.

(** ** Reading and writing files *)

Section Files.

Implicit Types (text l : str) (lines : list str) (fs : filesystem).

Lemma readlines_LF text : readlines (LF :: text) = [LF] :: readlines text.
Proof. done. Qed.

Lemma readlines_other c text :
  c ≠ LF →
  readlines (c :: text)
  = match readlines text with [] => [[c]] | l :: ls => (c :: l) :: ls end.
Proof. intros Hc. cbn [readlines]. apply N.eqb_neq in Hc. by rewrite Hc. Qed.

Lemma writelines_readlines text : writelines (readlines text) = text.
Proof.
  unfold writelines. induction text as [|c text IH]; [done|].
  destruct (decide (c = LF)) as [->|Hc].
  - rewrite readlines_LF. simpl. by rewrite IH.
  - rewrite readlines_other by done.
    destruct (readlines text) as [|l ls]; simpl in *; by rewrite <- IH.
Qed.

Lemma LF_not_in_cons c l : c ≠ LF → LF ∉ l → LF ∉ c :: l.
Proof. intros Hc Hl. apply not_elem_of_cons. split; [congruence|done]. Qed.

Lemma readlines_file_lines text : file_lines (readlines text).
Proof.
  induction text as [|c text IH]; [constructor|].
  destruct (decide (c = LF)) as [->|Hc].
  - rewrite readlines_LF. apply file_lines_cons; [|done].
    exists []. split; [done|]. apply not_elem_of_nil.
  - rewrite readlines_other by done.
    inversion IH as [|l [Hne Hl]|l ls [body [-> Hb]] Hls].
    + apply file_lines_last. split; [done|].
      apply LF_not_in_cons; [done|apply not_elem_of_nil].
    + apply file_lines_last. split; [done|]. by apply LF_not_in_cons.
    + apply file_lines_cons; [|done].
      exists (c :: body). split; [done|]. by apply LF_not_in_cons.
Qed.

Lemma readlines_terminated body text :
  LF ∉ body →
  readlines (body ++ LF :: text) = (body ++ [LF]) :: readlines text.
Proof.
  induction body as [|c body IH]; intros Hb; [done|].
  apply not_elem_of_cons in Hb as [Hc Hb].
  rewrite <- !app_comm_cons, readlines_other by congruence. by rewrite IH.
Qed.

Lemma readlines_unterminated l : unterminated l → readlines l = [l].
Proof.
  intros [Hne Hl]. induction l as [|c l IH]; [done|].
  apply not_elem_of_cons in Hl as [Hc Hl].
  rewrite readlines_other by congruence.
  destruct l as [|d l]; [done|]. by rewrite IH.
Qed.

(** Cutting what was written gives the lines back. *)
Lemma readlines_writelines lines :
  file_lines lines → readlines (writelines lines) = lines.
Proof.
  unfold writelines.
  induction 1 as [|l Hl|l ls [body [-> Hb]] _ IH]; simpl.
  - done.
  - rewrite app_nil_r. by apply readlines_unterminated.
  - rewrite <- app_assoc. simpl. rewrite readlines_terminated by done.
    by rewrite IH.
Qed.

(** Dropping lines leaves a sequence a file can hold. *)
Lemma file_lines_kept P lines :
  file_lines lines → file_lines (Spec.kept P lines).
Proof.
  induction 1 as [|l Hl|l ls Hl _ IH]; rewrite ?kept_cons.
  - constructor.
  - destruct (P l); [constructor|by apply file_lines_last].
  - destruct (P l); [done|by apply file_lines_cons].
Qed.

(** What each script does to the file system and prints, when the input
    file is there. *)
Lemma clean_summary_file_A fs input_path output_path text :
  CleanSummary.clean_summary_file input_path output_path (<[input_path := text]> fs)
  = inr (<[default input_path output_path :=
             writelines (Spec.kept Spec.predicate_A (readlines text))]>
           (<[input_path := text]> fs),
         CleanSummary.print_summary
           (len (readlines text))
           (Spec.removed Spec.reason_empty (readlines text))
           (Spec.removed Spec.reason_bash (readlines text))
           (len (Spec.kept Spec.predicate_A (readlines text)))
           (default input_path output_path)).
Proof.
  unfold CleanSummary.clean_summary_file, open_readlines, open_writelines.
  by rewrite lookup_insert_eq, filter_lines_A.
Qed.

Lemma clean_summary_file_B fs input_path output_path text :
  RemoveBracketLines.clean_summary_file input_path output_path
    (<[input_path := text]> fs)
  = inr (<[default input_path output_path :=
             writelines (Spec.kept Spec.predicate_B (readlines text))]>
           (<[input_path := text]> fs),
         RemoveBracketLines.print_summary
           (len (readlines text))
           (Spec.removed Spec.predicate_B (readlines text))
           (len (Spec.kept Spec.predicate_B (readlines text)))
           (default input_path output_path)).
Proof.
  unfold RemoveBracketLines.clean_summary_file, open_readlines, open_writelines.
  by rewrite lookup_insert_eq, filter_lines_B.
Qed.

(** Without the input file both raise, and nothing is written. *)
Lemma clean_summary_file_A_missing fs input_path output_path :
  fs !! input_path = None →
  CleanSummary.clean_summary_file input_path output_path fs
  = inl (FileNotFoundError input_path).
Proof.
  intros H. unfold CleanSummary.clean_summary_file, open_readlines.
  by rewrite H.
Qed.

Lemma clean_summary_file_B_missing fs input_path output_path :
  fs !! input_path = None →
  RemoveBracketLines.clean_summary_file input_path output_path fs
  = inl (FileNotFoundError input_path).
Proof.
  intros H. unfold RemoveBracketLines.clean_summary_file, open_readlines.
  by rewrite H.
Qed.

End Files.

(** ** The conditions of the source against the specification's words *)

Section Predicates.

Implicit Types (line token : str) (lines : list str).

Lemma strip_blank line : bool_decide (strip line = []) = true ↔ Spec.blank line.
Proof. rewrite bool_decide_eq_true. apply strip_nil_iff. Qed.

Lemma strip_not_blank line :
  bool_decide (strip line = []) = false ↔ ¬ Spec.blank line.
Proof. rewrite bool_decide_eq_false. by rewrite strip_nil_iff. Qed.

(** For a token whose first code point is not whitespace, the prefix test
    after [lstrip] is "whitespace, then the token, then anything". *)
Lemma lstrip_startswith c token line :
  isspace c = false →
  startswith (lstrip line) (c :: token) = true
  ↔ Spec.begins_with (c :: token) line.
Proof.
  intros Hc. rewrite startswith_iff. split.
  - intros [rest Hrest]. destruct (lstrip_split line) as [ws [Hws Hline]].
    exists ws, rest. split; [done|]. by rewrite <- Hrest.
  - intros [ws [rest [Hws ->]]]. exists rest.
    rewrite lstrip_app_space by done.
    rewrite <- app_comm_cons. by apply lstrip_nonspace.
Qed.

Lemma B_not_space : isspace 66%N = false.
Proof. reflexivity. Qed.

Lemma bracket_not_space : isspace 0x23BF%N = false.
Proof. reflexivity. Qed.

Lemma lstrip_startswith_Bash line :
  startswith (lstrip line) (lit "Bash") = true
  ↔ Spec.begins_with (lit "Bash") line.
Proof. apply (lstrip_startswith 66%N (lit "ash")), B_not_space. Qed.

Lemma lstrip_startswith_bracket line :
  startswith (lstrip line) RemoveBracketLines.bracket = true
  ↔ Spec.begins_with RemoveBracketLines.bracket line.
Proof. apply (lstrip_startswith 0x23BF%N []), bracket_not_space. Qed.

(** A blank line has nothing left after [lstrip], so no token starts it. *)
Lemma blank_no_token line token :
  token ≠ [] → Spec.blank line → startswith (lstrip line) token = false.
Proof.
  intros Ht Hb. apply lstrip_nil_iff in Hb. rewrite Hb.
  by apply startswith_nil.
Qed.

(** The loops on a single line. *)
Lemma filter_line_A line :
  CleanSummary.filter_lines [line]
  = if bool_decide (strip line = []) then
      CleanSummary.LoopState [] 1 0
    else if startswith (lstrip line) (lit "Bash") then
      CleanSummary.LoopState [] 0 1
    else CleanSummary.LoopState [line] 0 0.
Proof.
  unfold CleanSummary.filter_lines. cbn [fold_left].
  unfold CleanSummary.loop_body.
  by destruct (bool_decide (strip line = [])),
    (startswith (lstrip line) (lit "Bash")).
Qed.

Lemma filter_line_B line :
  RemoveBracketLines.filter_lines [line]
  = if startswith (lstrip line) RemoveBracketLines.bracket then
      RemoveBracketLines.LoopState [] 1
    else RemoveBracketLines.LoopState [line] 0.
Proof.
  unfold RemoveBracketLines.filter_lines. cbn [fold_left].
  unfold RemoveBracketLines.loop_body.
  by destruct (startswith (lstrip line) RemoveBracketLines.bracket).
Qed.

(** Nothing a predicate matches is left among the lines it keeps. *)
Lemma removed_kept_0 (P Q : str → bool) lines :
  (∀ line, Q line = true → P line = true) →
  Spec.removed Q (Spec.kept P lines) = 0.
Proof.
  intros HQP. induction lines as [|line lines IH]; [done|].
  rewrite kept_cons. destruct (P line) eqn:HP; [done|].
  rewrite removed_cons. destruct (Q line) eqn:HQ; [|done].
  apply HQP in HQ. congruence.
Qed.

Lemma kept_kept P lines : Spec.kept P (Spec.kept P lines) = Spec.kept P lines.
Proof.
  induction lines as [|line lines IH]; [done|].
  rewrite kept_cons. destruct (P line) eqn:HP; [done|].
  by rewrite kept_cons, HP, IH.
Qed.

Lemma reason_empty_A line :
  Spec.reason_empty line = true → Spec.predicate_A line = true.
Proof. unfold Spec.reason_empty, Spec.predicate_A. by intros ->. Qed.

Lemma reason_bash_A line :
  Spec.reason_bash line = true → Spec.predicate_A line = true.
Proof.
  unfold Spec.reason_bash, Spec.predicate_A.
  intros [_ ->]%andb_true_iff. apply orb_true_r.
Qed.

End Predicates.

(** ** The properties *)

(** C1. For every input line sequence and for both scripts, the reported
    counts satisfy [final_count + removed_count = original_count], where
    [original_count] is the number of input lines, [removed_count] the number
    of lines the predicate matched (for Variant A the empty-line count plus
    the Bash-line count) and [final_count] the number of lines written.
    First on the loops, for any line sequence; then on the whole call, for
    any text of the input file: the printed values are these counts and the
    output file holds [final_count] lines. *)
Theorem counts_add_up :
  (∀ lines : list str,
     let a := CleanSummary.filter_lines lines in
     let b := RemoveBracketLines.filter_lines lines in
     len (CleanSummary.cleaned_lines a)
       + (CleanSummary.empty_removed a + CleanSummary.bash_removed a)
       = len lines
     ∧ CleanSummary.empty_removed a + CleanSummary.bash_removed a
       = Spec.removed Spec.predicate_A lines
     ∧ len (RemoveBracketLines.cleaned_lines b)
         + RemoveBracketLines.removed_count b
       = len lines
     ∧ RemoveBracketLines.removed_count b
       = Spec.removed Spec.predicate_B lines)
  ∧ (∀ (fs : filesystem) (input_path : string) (output_path : option string)
       (text : str),
       ∃ written original_count empty_removed bash_removed final_count,
         CleanSummary.clean_summary_file input_path output_path
           (<[input_path := text]> fs)
         = inr (<[default input_path output_path := written]>
                  (<[input_path := text]> fs),
                CleanSummary.print_summary original_count empty_removed
                  bash_removed final_count (default input_path output_path))
         ∧ original_count = len (readlines text)
         ∧ empty_removed + bash_removed
           = Spec.removed Spec.predicate_A (readlines text)
         ∧ final_count = len (readlines written)
         ∧ final_count + (empty_removed + bash_removed) = original_count)
  ∧ (∀ (fs : filesystem) (input_path : string) (output_path : option string)
       (text : str),
       ∃ written original_count removed_count final_count,
         RemoveBracketLines.clean_summary_file input_path output_path
           (<[input_path := text]> fs)
         = inr (<[default input_path output_path := written]>
                  (<[input_path := text]> fs),
                RemoveBracketLines.print_summary original_count removed_count
                  final_count (default input_path output_path))
         ∧ original_count = len (readlines text)
         ∧ removed_count = Spec.removed Spec.predicate_B (readlines text)
         ∧ final_count = len (readlines written)
         ∧ final_count + removed_count = original_count).
Proof.
  split; [|split].
  - intros lines a b. subst a b. rewrite filter_lines_A, filter_lines_B.
    cbn [CleanSummary.cleaned_lines CleanSummary.empty_removed
         CleanSummary.bash_removed RemoveBracketLines.cleaned_lines
         RemoveBracketLines.removed_count].
    rewrite removed_A_split. unfold len.
    pose proof (kept_removed_length Spec.predicate_A lines).
    pose proof (kept_removed_length Spec.predicate_B lines).
    done.
  - intros fs input_path output_path text.
    eexists _, _, _, _, _. split; [apply clean_summary_file_A|].
    rewrite readlines_writelines
      by apply file_lines_kept, readlines_file_lines.
    rewrite removed_A_split. unfold len.
    pose proof (kept_removed_length Spec.predicate_A (readlines text)).
    done.
  - intros fs input_path output_path text.
    eexists _, _, _, _. split; [apply clean_summary_file_B|].
    rewrite readlines_writelines
      by apply file_lines_kept, readlines_file_lines.
    unfold len.
    pose proof (kept_removed_length Spec.predicate_B (readlines text)).
    done.
Qed.

(** C2. For every input line sequence and for both scripts, the output is
    exactly the subsequence of the input lines on which the predicate is
    false: same relative order, each line with its text and terminator as it
    was, nothing added. On the loops, the kept lines are the filtered input;
    on the whole call, the output file holds their concatenation and nothing
    else, so that cutting it into lines gives exactly them, and no other file
    is touched. *)
Theorem output_is_kept_subsequence :
  (∀ lines : list str,
     CleanSummary.cleaned_lines (CleanSummary.filter_lines lines)
     = List.filter (λ line, negb (Spec.predicate_A line)) lines
     ∧ RemoveBracketLines.cleaned_lines (RemoveBracketLines.filter_lines lines)
       = List.filter (λ line, negb (Spec.predicate_B line)) lines)
  ∧ (∀ (fs : filesystem) (input_path : string) (output_path : option string)
       (text : str),
       let fs0 := <[input_path := text]> fs in
       let out := default input_path output_path in
       let kept_A :=
         List.filter (λ line, negb (Spec.predicate_A line)) (readlines text) in
       let kept_B :=
         List.filter (λ line, negb (Spec.predicate_B line)) (readlines text) in
       (∃ printed,
          CleanSummary.clean_summary_file input_path output_path fs0
          = inr (<[out := concat kept_A]> fs0, printed))
       ∧ readlines (concat kept_A) = kept_A
       ∧ (∃ printed,
            RemoveBracketLines.clean_summary_file input_path output_path fs0
            = inr (<[out := concat kept_B]> fs0, printed))
       ∧ readlines (concat kept_B) = kept_B).
Proof.
  split.
  - intros lines. by rewrite filter_lines_A, filter_lines_B.
  - intros fs input_path output_path text fs0 out kept_A kept_B.
    split; [|split; [|split]].
    + eexists. apply clean_summary_file_A.
    + apply readlines_writelines, file_lines_kept, readlines_file_lines.
    + eexists. apply clean_summary_file_B.
    + apply readlines_writelines, file_lines_kept, readlines_file_lines.
Qed.

(** C3. For every input line sequence and for both scripts, filtering the
    filter's own output removes nothing more: the second run's removed count
    is 0 (for Variant A both counts) and its output equals its input. On the
    loops for any line sequence; then for two calls in a row, the second one
    reading the file the first one wrote and writing anywhere. *)
Theorem second_pass_removes_nothing :
  (∀ lines : list str,
     let out_A := CleanSummary.cleaned_lines (CleanSummary.filter_lines lines) in
     let out_B :=
       RemoveBracketLines.cleaned_lines (RemoveBracketLines.filter_lines lines) in
     CleanSummary.filter_lines out_A = CleanSummary.LoopState out_A 0 0
     ∧ RemoveBracketLines.filter_lines out_B
       = RemoveBracketLines.LoopState out_B 0)
  ∧ (∀ (fs : filesystem) (input_path : string)
       (output_path output_path' : option string) (text : str),
       let out := default input_path output_path in
       let out' := default out output_path' in
       (∃ fs1 printed written final_count,
          CleanSummary.clean_summary_file input_path output_path
            (<[input_path := text]> fs) = inr (fs1, printed)
          ∧ fs1 !! out = Some written
          ∧ final_count = len (readlines written)
          ∧ CleanSummary.clean_summary_file out output_path' fs1
            = inr (<[out' := written]> fs1,
                   CleanSummary.print_summary final_count 0 0 final_count out'))
       ∧ (∃ fs1 printed written final_count,
            RemoveBracketLines.clean_summary_file input_path output_path
              (<[input_path := text]> fs) = inr (fs1, printed)
            ∧ fs1 !! out = Some written
            ∧ final_count = len (readlines written)
            ∧ RemoveBracketLines.clean_summary_file out output_path' fs1
              = inr (<[out' := written]> fs1,
                     RemoveBracketLines.print_summary final_count 0
                       final_count out'))).
Proof.
  split.
  - intros lines out_A out_B. subst out_A out_B.
    rewrite !filter_lines_A, !filter_lines_B.
    cbn [CleanSummary.cleaned_lines RemoveBracketLines.cleaned_lines].
    rewrite !kept_kept.
    rewrite (removed_kept_0 _ _ _ reason_empty_A).
    rewrite (removed_kept_0 _ _ _ reason_bash_A).
    by rewrite (removed_kept_0 Spec.predicate_B Spec.predicate_B).
  - intros fs input_path output_path output_path' text out out'.
    split.
    + eexists _, _, _, _. split; [apply clean_summary_file_A|].
      split; [apply lookup_insert_eq|]. split; [done|].
      fold out.
      set (kept := Spec.kept Spec.predicate_A (readlines text)).
      assert (readlines (writelines kept) = kept) as Hre
        by apply readlines_writelines, file_lines_kept, readlines_file_lines.
      set (fs1 := <[out := writelines kept]> _).
      rewrite <- (insert_id fs1 out (writelines kept))
        by apply lookup_insert_eq.
      rewrite clean_summary_file_A.
      rewrite (insert_id fs1 out (writelines kept))
        by apply lookup_insert_eq.
      rewrite Hre. subst kept. rewrite kept_kept.
      rewrite (removed_kept_0 _ _ _ reason_empty_A).
      by rewrite (removed_kept_0 _ _ _ reason_bash_A).
    + eexists _, _, _, _. split; [apply clean_summary_file_B|].
      split; [apply lookup_insert_eq|]. split; [done|].
      fold out.
      set (kept := Spec.kept Spec.predicate_B (readlines text)).
      assert (readlines (writelines kept) = kept) as Hre
        by apply readlines_writelines, file_lines_kept, readlines_file_lines.
      set (fs1 := <[out := writelines kept]> _).
      rewrite <- (insert_id fs1 out (writelines kept))
        by apply lookup_insert_eq.
      rewrite clean_summary_file_B.
      rewrite (insert_id fs1 out (writelines kept))
        by apply lookup_insert_eq.
      rewrite Hre. subst kept. rewrite kept_kept.
      by rewrite (removed_kept_0 Spec.predicate_B Spec.predicate_B).
Qed.

(** C4. Variant A removes a line iff it is blank ([line.strip() == '']) or
    [line.lstrip().startswith("Bash")], the exact case-sensitive token right
    after the leading whitespace; the blank check comes first and every
    removal is counted under exactly one reason. Each line falls in exactly
    one of three cases, worded as the specification does; over a whole input
    the two counts are the numbers of lines of the two reasons; and the
    lines ["xBash\n"] and ["bash\n"] are not removed. *)
Theorem variant_A_predicate :
  (∀ line : str,
     (Spec.blank line
      ∧ CleanSummary.filter_lines [line] = CleanSummary.LoopState [] 1 0)
     ∨ (¬ Spec.blank line ∧ Spec.begins_with (lit "Bash") line
        ∧ CleanSummary.filter_lines [line] = CleanSummary.LoopState [] 0 1)
     ∨ (¬ Spec.blank line ∧ ¬ Spec.begins_with (lit "Bash") line
        ∧ CleanSummary.filter_lines [line] = CleanSummary.LoopState [line] 0 0))
  ∧ (∀ line : str, ¬ (Spec.blank line ∧ Spec.begins_with (lit "Bash") line))
  ∧ (∀ line : str,
       Spec.predicate_A line = true
       ↔ Spec.blank line ∨ Spec.begins_with (lit "Bash") line)
  ∧ (∀ lines : list str,
       let st := CleanSummary.filter_lines lines in
       CleanSummary.empty_removed st
       = length (List.filter (λ line, bool_decide (strip line = [])) lines)
       ∧ CleanSummary.bash_removed st
         = length (List.filter
                     (λ line, negb (bool_decide (strip line = []))
                              && startswith (lstrip line) (lit "Bash")) lines)
       ∧ CleanSummary.cleaned_lines st
         = List.filter
             (λ line, negb (bool_decide (strip line = [])
                            || startswith (lstrip line) (lit "Bash"))) lines)
  ∧ CleanSummary.filter_lines [lit "xBash" ++ [LF]]
    = CleanSummary.LoopState [lit "xBash" ++ [LF]] 0 0
  ∧ CleanSummary.filter_lines [lit "bash" ++ [LF]]
    = CleanSummary.LoopState [lit "bash" ++ [LF]] 0 0.
Proof.
  assert (∀ line, ¬ (Spec.blank line ∧ Spec.begins_with (lit "Bash") line))
    as Hexcl.
  { intros line [Hb Ht]. apply lstrip_startswith_Bash in Ht.
    by rewrite (blank_no_token line (lit "Bash")) in Ht. }
  split; [|split; [done|split; [|split; [|split]]]].
  - intros line. rewrite filter_line_A.
    destruct (bool_decide (strip line = [])) eqn:Hs.
    { left. split; [by apply strip_blank|done]. }
    apply strip_not_blank in Hs. right.
    destruct (startswith (lstrip line) (lit "Bash")) eqn:Hp.
    { left. split; [done|]. split; [by apply lstrip_startswith_Bash|done]. }
    right. split; [done|]. split; [|done].
    rewrite <- lstrip_startswith_Bash. congruence.
  - intros line. unfold Spec.predicate_A.
    by rewrite orb_true_iff, strip_blank, lstrip_startswith_Bash.
  - intros lines st. subst st. by rewrite filter_lines_A.
  - reflexivity.
  - reflexivity.
Qed.

(** C5. Variant B removes a line iff [line.lstrip().startswith("⎿")]: after
    the leading whitespace comes that exact code point (U+23BF); no other
    line is removed, blank and whitespace-only lines included. Each line
    falls in exactly one of two cases; a blank line is always kept; over a
    whole input the count and the output are those of that test. *)
Theorem variant_B_predicate :
  (∀ line : str,
     (Spec.begins_with [0x23BF%N] line
      ∧ RemoveBracketLines.filter_lines [line]
        = RemoveBracketLines.LoopState [] 1)
     ∨ (¬ Spec.begins_with [0x23BF%N] line
        ∧ RemoveBracketLines.filter_lines [line]
          = RemoveBracketLines.LoopState [line] 0))
  ∧ (∀ line : str,
       Spec.blank line →
       RemoveBracketLines.filter_lines [line]
       = RemoveBracketLines.LoopState [line] 0)
  ∧ (∀ line : str,
       Spec.predicate_B line = true ↔ Spec.begins_with [0x23BF%N] line)
  ∧ (∀ lines : list str,
       let st := RemoveBracketLines.filter_lines lines in
       RemoveBracketLines.removed_count st
       = length (List.filter
                   (λ line, startswith (lstrip line) [0x23BF%N]) lines)
       ∧ RemoveBracketLines.cleaned_lines st
         = List.filter
             (λ line, negb (startswith (lstrip line) [0x23BF%N])) lines).
Proof.
  split; [|split; [|split]].
  - intros line. rewrite filter_line_B.
    destruct (startswith (lstrip line) RemoveBracketLines.bracket) eqn:Hp.
    + left. split; [|done]. by apply lstrip_startswith_bracket.
    + right. split; [|done].
      intros Ht. apply lstrip_startswith_bracket in Ht. congruence.
  - intros line Hb. rewrite filter_line_B.
    by rewrite (blank_no_token line RemoveBracketLines.bracket).
  - intros line. apply lstrip_startswith_bracket.
  - intros lines st. subst st. by rewrite filter_lines_B.
Qed.

Lemma variant_B_predicate_witness :
  Spec.blank (lit "   " ++ [LF])
  ∧ RemoveBracketLines.filter_lines [lit "   " ++ [LF]]
    = RemoveBracketLines.LoopState [lit "   " ++ [LF]] 0.
Proof.
  assert (Spec.blank (lit "   " ++ [LF])) as Hb by (repeat constructor).
  split; [exact Hb|].
  exact (proj1 (proj2 variant_B_predicate) (lit "   " ++ [LF]) Hb).
Defined.

(** C6. On the lines ["Bash ls\n"; "\n"; "   \n"; "ok\n"; "  Bash echo hi\n"]
    Variant A gives the output [["ok\n"]] with original_count 5, removed
    count 4 (2 blank lines and 2 Bash lines) and final_count 1; the same on a
    file with these lines, where the printed summary reads so. *)
Theorem example_variant_A :
  readlines example_A_text = example_A_lines
  ∧ len example_A_lines = 5
  ∧ CleanSummary.filter_lines example_A_lines
    = CleanSummary.LoopState [lit "ok" ++ [LF]] 2 2
  ∧ len (CleanSummary.cleaned_lines (CleanSummary.filter_lines example_A_lines))
    = 1
  ∧ CleanSummary.clean_summary_file "summary.md" (Some "summary_cleaned.md")
      {[ "summary.md" := example_A_text ]}
    = inr (<[ "summary_cleaned.md" := lit "ok" ++ [LF] ]>
             {[ "summary.md" := example_A_text ]},
           [ "Cleaning complete!";
             "Original lines: 5";
             "Empty lines removed: 2";
             "Lines starting with 'Bash' removed: 2";
             "Final lines: 1";
             "Output saved to: summary_cleaned.md" ]%string).
Proof.
  split; [reflexivity|]. split; [reflexivity|]. split; [reflexivity|].
  split; [reflexivity|].
  unfold CleanSummary.clean_summary_file, open_readlines, open_writelines.
  rewrite lookup_singleton_eq. reflexivity.
Qed.

(** C7. On the lines ["⎿ result\n"; "normal line\n"; "  ⎿ indented result\n"]
    Variant B gives the output [["normal line\n"]] with original_count 3,
    removed_count 2 and final_count 1; the same on a file with these lines. *)
Theorem example_variant_B :
  readlines example_B_text = example_B_lines
  ∧ len example_B_lines = 3
  ∧ RemoveBracketLines.filter_lines example_B_lines
    = RemoveBracketLines.LoopState [lit "normal line" ++ [LF]] 2
  ∧ len (RemoveBracketLines.cleaned_lines
           (RemoveBracketLines.filter_lines example_B_lines)) = 1
  ∧ RemoveBracketLines.clean_summary_file "summary.md"
      (Some "summary_cleaned.md") {[ "summary.md" := example_B_text ]}
    = inr (<[ "summary_cleaned.md" := lit "normal line" ++ [LF] ]>
             {[ "summary.md" := example_B_text ]},
           [ "Cleaning complete!";
             "Original lines: 3";
             "Lines starting with '⎿' removed: 2";
             "Final lines: 1";
             "Output saved to: summary_cleaned.md" ]%string).
Proof.
  split; [reflexivity|]. split; [reflexivity|]. split; [reflexivity|].
  split; [reflexivity|].
  unfold RemoveBracketLines.clean_summary_file, open_readlines, open_writelines.
  rewrite lookup_singleton_eq. reflexivity.
Qed.

(** C8. On the empty line sequence (a file of 0 lines) both scripts write an
    empty output and report original_count 0, removed count 0 (Variant A:
    both reasons 0) and final_count 0, and raise nothing. *)
Theorem empty_input :
  readlines [] = []
  ∧ CleanSummary.filter_lines [] = CleanSummary.LoopState [] 0 0
  ∧ RemoveBracketLines.filter_lines [] = RemoveBracketLines.LoopState [] 0
  ∧ (∀ (fs : filesystem) (input_path : string) (output_path : option string),
       let fs0 := <[input_path := []]> fs in
       let out := default input_path output_path in
       CleanSummary.clean_summary_file input_path output_path fs0
       = inr (<[out := []]> fs0, CleanSummary.print_summary 0 0 0 0 out)
       ∧ RemoveBracketLines.clean_summary_file input_path output_path fs0
         = inr (<[out := []]> fs0, RemoveBracketLines.print_summary 0 0 0 out)).
Proof.
  split; [done|]. split; [done|]. split; [done|].
  intros fs input_path output_path fs0 out. subst fs0 out.
  by rewrite clean_summary_file_A, clean_summary_file_B.
Qed.

(** ** Facts on the host *)

Section HostFacts.

Implicit Types (raw text : str) (lines : list str) (h : Host.host).

Lemma translate_no_CR pendingcr raw : Host.CR ∉ Host.translate pendingcr raw.
Proof.
  revert pendingcr. induction raw as [|c raw IH]; intros pendingcr.
  - apply not_elem_of_nil.
  - cbn [Host.translate]. destruct (c =? Host.CR)%N eqn:Hc.
    + apply not_elem_of_cons. split; [done|apply IH].
    + destruct ((c =? LF)%N && pendingcr); [apply IH|].
      apply not_elem_of_cons. split; [|apply IH].
      apply N.eqb_neq in Hc. congruence.
Qed.

Lemma translate_no_CR_id raw : Host.CR ∉ raw → Host.translate false raw = raw.
Proof.
  induction raw as [|c raw IH]; [done|].
  intros [Hc Hraw]%not_elem_of_cons. cbn [Host.translate].
  assert ((c =? Host.CR)%N = false) as -> by (apply N.eqb_neq; congruence).
  rewrite andb_false_r. by rewrite IH.
Qed.

(** Reading translates nothing exactly when the file has no carriage
    return. *)
Lemma universal_newlines_id_iff raw :
  Host.universal_newlines raw = raw ↔ Host.CR ∉ raw.
Proof.
  split.
  - intros H. rewrite <- H. apply translate_no_CR.
  - apply translate_no_CR_id.
Qed.

Lemma elem_of_writelines_kept P lines (c : char) :
  c ∈ writelines (Spec.kept P lines) → c ∈ writelines lines.
Proof.
  unfold writelines. induction lines as [|line lines IH]; [done|].
  rewrite kept_cons. simpl. destruct (P line).
  - intros H. apply elem_of_app. right. by apply IH.
  - simpl. rewrite !elem_of_app. intros [H|H]; [by left|right; by apply IH].
Qed.

(** What is written after reading has no carriage return. *)
Lemma written_no_CR P raw :
  Host.CR ∉ writelines (Spec.kept P (readlines (Host.universal_newlines raw))).
Proof.
  intros H. apply elem_of_writelines_kept in H.
  rewrite writelines_readlines in H. by apply translate_no_CR in H.
Qed.

Lemma print_lines_all accepts (lines : list string) :
  forallb accepts lines = true → Host.print_lines accepts lines = (lines, None).
Proof.
  induction lines as [|line lines IH]; [done|].
  cbn [forallb Host.print_lines]. intros [-> H]%andb_true_iff.
  by rewrite IH.
Qed.

Lemma print_lines_completed accepts (lines : list string) :
  (Host.print_lines accepts lines).2 = None →
  Host.print_lines accepts lines = (lines, None).
Proof.
  induction lines as [|line lines IH]; [done|].
  cbn [Host.print_lines]. destruct (accepts line); [|done].
  destruct (Host.print_lines accepts lines) as [printed raised] eqn:Hp.
  cbn [snd] in *. intros ->. specialize (IH eq_refl). by injection IH as ->.
Qed.

Lemma print_lines_stops accepts (done rest : list string) (line : string) :
  forallb accepts done = true → accepts line = false →
  Host.print_lines accepts (done ++ line :: rest)
  = (done, Some Host.UnicodeEncodeError).
Proof.
  intros Hdone Hline. induction done as [|d done IH].
  - cbn [app Host.print_lines]. by rewrite Hline.
  - cbn [forallb] in Hdone. apply andb_true_iff in Hdone as [Hd Hdone].
    cbn [app Host.print_lines]. by rewrite Hd, IH.
Qed.

(** The calls once the input is read. *)
Lemma host_run_A h input_path output_path lines :
  Host.open_readlines h input_path = inr lines →
  CleanSummaryHost.clean_summary_file h input_path output_path
  = match Host.refuses h Host.Write (default input_path output_path) with
    | Some kind =>
        Host.Outcome (Host.disk h) []
          (Some (Host.OSError kind (default input_path output_path)))
    | None =>
        let p :=
          Host.print_lines (Host.stdout_accepts h)
            (CleanSummary.print_summary (len lines)
               (Spec.removed Spec.reason_empty lines)
               (Spec.removed Spec.reason_bash lines)
               (len (Spec.kept Spec.predicate_A lines))
               (default input_path output_path)) in
        Host.Outcome
          (<[default input_path output_path :=
               Host.Utf8 (writelines (Spec.kept Spec.predicate_A lines))]>
             (Host.disk h))
          p.1 p.2
    end.
Proof.
  intros Hread. unfold CleanSummaryHost.clean_summary_file.
  rewrite Hread, filter_lines_A. unfold Host.open_writelines.
  cbn [CleanSummary.cleaned_lines CleanSummary.empty_removed
       CleanSummary.bash_removed].
  destruct (Host.refuses h Host.Write _); [done|].
  cbv zeta. by destruct (Host.print_lines _ _).
Qed.

Lemma host_run_B h input_path output_path lines :
  Host.open_readlines h input_path = inr lines →
  RemoveBracketLinesHost.clean_summary_file h input_path output_path
  = match Host.refuses h Host.Write (default input_path output_path) with
    | Some kind =>
        Host.Outcome (Host.disk h) []
          (Some (Host.OSError kind (default input_path output_path)))
    | None =>
        let p :=
          Host.print_lines (Host.stdout_accepts h)
            (RemoveBracketLines.print_summary (len lines)
               (Spec.removed Spec.predicate_B lines)
               (len (Spec.kept Spec.predicate_B lines))
               (default input_path output_path)) in
        Host.Outcome
          (<[default input_path output_path :=
               Host.Utf8 (writelines (Spec.kept Spec.predicate_B lines))]>
             (Host.disk h))
          p.1 p.2
    end.
Proof.
  intros Hread. unfold RemoveBracketLinesHost.clean_summary_file.
  rewrite Hread, filter_lines_B. unfold Host.open_writelines.
  cbn [RemoveBracketLines.cleaned_lines RemoveBracketLines.removed_count].
  destruct (Host.refuses h Host.Write _); [done|].
  cbv zeta. by destruct (Host.print_lines _ _).
Qed.

Lemma host_completed_A h input_path output_path lines :
  Host.open_readlines h input_path = inr lines →
  Host.raised (CleanSummaryHost.clean_summary_file h input_path output_path)
  = None →
  completed_A h (default input_path output_path)
    (CleanSummaryHost.clean_summary_file h input_path output_path)
    (writelines (Spec.kept Spec.predicate_A lines))
    (len lines) (Spec.removed Spec.reason_empty lines)
    (Spec.removed Spec.reason_bash lines)
    (len (Spec.kept Spec.predicate_A lines)).
Proof.
  intros Hread. rewrite (host_run_A _ _ _ _ Hread).
  destruct (Host.refuses h Host.Write _); [done|].
  cbv zeta. cbn [Host.raised]. intros Hp.
  apply print_lines_completed in Hp. rewrite Hp. by repeat split.
Qed.

Lemma host_completed_B h input_path output_path lines :
  Host.open_readlines h input_path = inr lines →
  Host.raised (RemoveBracketLinesHost.clean_summary_file h input_path
                 output_path) = None →
  completed_B h (default input_path output_path)
    (RemoveBracketLinesHost.clean_summary_file h input_path output_path)
    (writelines (Spec.kept Spec.predicate_B lines))
    (len lines) (Spec.removed Spec.predicate_B lines)
    (len (Spec.kept Spec.predicate_B lines)).
Proof.
  intros Hread. rewrite (host_run_B _ _ _ _ Hread).
  destruct (Host.refuses h Host.Write _); [done|].
  cbv zeta. cbn [Host.raised]. intros Hp.
  apply print_lines_completed in Hp. rewrite Hp. by repeat split.
Qed.

End HostFacts.

(** C9, as it stands, fails on a host: with the same input lines, a run
    whose output path cannot be opened writes and reports nothing where the
    other writes [["ok\n"]] and reports its counts, and Variant B on a
    terminal that encodes ASCII only stops at the printed line holding the
    glyph where a UTF-8 terminal shows the whole summary. *)
Lemma runs_differ_by_path_and_terminal :
  let h := example_host {[ "summary.md"%string := Host.Utf8 example_A_text ]} in
  let r1 :=
    CleanSummaryHost.clean_summary_file h "summary.md"
      (Some "summary_cleaned.md") in
  let r2 := CleanSummaryHost.clean_summary_file h "summary.md" (Some "") in
  let files : gmap string Host.content :=
    {[ "summary.md"%string := Host.Utf8 example_B_text ]} in
  let r3 :=
    RemoveBracketLinesHost.clean_summary_file (example_host files)
      "summary.md" (Some "summary_cleaned.md") in
  let r4 :=
    RemoveBracketLinesHost.clean_summary_file (example_ascii_host files)
      "summary.md" (Some "summary_cleaned.md") in
  Host.open_readlines h "summary.md" = inr example_A_lines
  ∧ r1 = Host.Outcome
           (<["summary_cleaned.md"%string := Host.Utf8 (lit "ok" ++ [LF])]>
              (Host.disk h))
           (CleanSummary.print_summary 5 2 2 1 "summary_cleaned.md") None
  ∧ r2 = Host.Outcome (Host.disk h) []
           (Some (Host.OSError Host.FileNotFound ""))
  ∧ Host.printed r1 ≠ Host.printed r2
  ∧ Host.disk_after r1 !! "summary_cleaned.md"%string
    ≠ Host.disk_after r2 !! ""%string
  ∧ Host.open_readlines (example_host files) "summary.md"
    = Host.open_readlines (example_ascii_host files) "summary.md"
  ∧ r3 = Host.Outcome
           (<["summary_cleaned.md"%string
               := Host.Utf8 (lit "normal line" ++ [LF])]> files)
           (RemoveBracketLines.print_summary 3 2 1 "summary_cleaned.md") None
  ∧ r4 = Host.Outcome
           (<["summary_cleaned.md"%string
               := Host.Utf8 (lit "normal line" ++ [LF])]> files)
           [ "Cleaning complete!"; "Original lines: 3" ]%string
           (Some Host.UnicodeEncodeError)
  ∧ Host.printed r3 ≠ Host.printed r4.
Proof.
  intros h r1 r2 files r3 r4.
  assert (Host.open_readlines h "summary.md" = inr example_A_lines) as HA
    by (vm_compute; reflexivity).
  assert (Host.open_readlines (example_host files) "summary.md"
          = inr example_B_lines) as HB by (vm_compute; reflexivity).
  assert (Host.open_readlines (example_ascii_host files) "summary.md"
          = inr example_B_lines) as HB' by (vm_compute; reflexivity).
  assert (r1 = Host.Outcome
                 (<["summary_cleaned.md"%string
                     := Host.Utf8 (lit "ok" ++ [LF])]> (Host.disk h))
                 (CleanSummary.print_summary 5 2 2 1 "summary_cleaned.md")
                 None) as H1.
  { subst r1. rewrite (host_run_A _ _ _ _ HA). reflexivity. }
  assert (r2 = Host.Outcome (Host.disk h) []
                 (Some (Host.OSError Host.FileNotFound ""))) as H2.
  { subst r2. rewrite (host_run_A _ _ _ _ HA). reflexivity. }
  assert (r3 = Host.Outcome
                 (<["summary_cleaned.md"%string
                     := Host.Utf8 (lit "normal line" ++ [LF])]> files)
                 (RemoveBracketLines.print_summary 3 2 1 "summary_cleaned.md")
                 None) as H3.
  { subst r3. rewrite (host_run_B _ _ _ _ HB). reflexivity. }
  assert (r4 = Host.Outcome
                 (<["summary_cleaned.md"%string
                     := Host.Utf8 (lit "normal line" ++ [LF])]> files)
                 [ "Cleaning complete!"; "Original lines: 3" ]%string
                 (Some Host.UnicodeEncodeError)) as H4.
  { subst r4. rewrite (host_run_B _ _ _ _ HB'). reflexivity. }
  split; [exact HA|]. split; [exact H1|]. split; [exact H2|].
  split; [rewrite H1, H2; discriminate|].
  split.
  { rewrite H1, H2. cbn [Host.disk_after]. rewrite lookup_insert_eq.
    subst h. cbn [example_host Host.disk]. by rewrite lookup_singleton_ne. }
  split; [by rewrite HB, HB'|]. split; [exact H3|]. split; [exact H4|].
  rewrite H3, H4. discriminate.
Qed.

(** C9, amended. Both scripts are functions of the input line sequence as
    far as they get: two runs that read equal line sequences and both
    complete (nothing raised) have written the same text and printed the same
    counts, whatever the paths, the bytes and line ends of the input files,
    the other files and the terminals. Whether a run completes is another
    matter: it depends on the output path and on the terminal. *)
Theorem completed_runs_depend_on_lines_only
    (h1 h2 : Host.host) (input1 input2 : string)
    (output1 output2 : option string) (lines : list str) :
  Host.open_readlines h1 input1 = inr lines →
  Host.open_readlines h2 input2 = inr lines →
  (let r1 := CleanSummaryHost.clean_summary_file h1 input1 output1 in
   let r2 := CleanSummaryHost.clean_summary_file h2 input2 output2 in
   Host.raised r1 = None → Host.raised r2 = None →
   ∃ written original_count empty_removed bash_removed final_count,
     completed_A h1 (default input1 output1) r1 written original_count
       empty_removed bash_removed final_count
     ∧ completed_A h2 (default input2 output2) r2 written original_count
         empty_removed bash_removed final_count
     ∧ original_count = len lines
     ∧ final_count = len (readlines written))
  ∧ (let r1 := RemoveBracketLinesHost.clean_summary_file h1 input1 output1 in
     let r2 := RemoveBracketLinesHost.clean_summary_file h2 input2 output2 in
     Host.raised r1 = None → Host.raised r2 = None →
     ∃ written original_count removed_count final_count,
       completed_B h1 (default input1 output1) r1 written original_count
         removed_count final_count
       ∧ completed_B h2 (default input2 output2) r2 written original_count
           removed_count final_count
       ∧ original_count = len lines
       ∧ final_count = len (readlines written)).
Proof.
  intros Hread1 Hread2.
  assert (∃ text, lines = readlines text) as [text ->].
  { unfold Host.open_readlines in Hread1.
    destruct (Host.refuses h1 Host.Read input1); [done|].
    destruct (Host.disk h1 !! input1) as [[raw|]|]; [|done|done].
    injection Hread1 as <-. by eexists. }
  split.
  - intros r1 r2 Hr1 Hr2. eexists _, _, _, _, _.
    split; [exact (host_completed_A _ _ _ _ Hread1 Hr1)|].
    split; [exact (host_completed_A _ _ _ _ Hread2 Hr2)|].
    split; [done|].
    by rewrite readlines_writelines
      by apply file_lines_kept, readlines_file_lines.
  - intros r1 r2 Hr1 Hr2. eexists _, _, _, _.
    split; [exact (host_completed_B _ _ _ _ Hread1 Hr1)|].
    split; [exact (host_completed_B _ _ _ _ Hread2 Hr2)|].
    split; [done|].
    by rewrite readlines_writelines
      by apply file_lines_kept, readlines_file_lines.
Qed.

Lemma completed_runs_depend_on_lines_only_witness :
  let h1 :=
    example_host {[ "summary.md"%string := Host.Utf8 example_A_crlf ]} in
  let h2 :=
    example_host (<["notes/log.md"%string := Host.Utf8 example_A_text]>
                    {[ "other.bin"%string := Host.NotUtf8 ]}) in
  let r1 :=
    CleanSummaryHost.clean_summary_file h1 "summary.md"
      (Some "summary_cleaned.md") in
  let r2 := CleanSummaryHost.clean_summary_file h2 "notes/log.md" None in
  Host.open_readlines h1 "summary.md" = inr example_A_lines
  ∧ Host.open_readlines h2 "notes/log.md" = inr example_A_lines
  ∧ Host.raised r1 = None
  ∧ Host.raised r2 = None
  ∧ ∃ written original_count empty_removed bash_removed final_count,
      completed_A h1 "summary_cleaned.md" r1 written original_count
        empty_removed bash_removed final_count
      ∧ completed_A h2 "notes/log.md" r2 written original_count
          empty_removed bash_removed final_count
      ∧ original_count = len example_A_lines
      ∧ final_count = len (readlines written).
Proof.
  intros h1 h2 r1 r2.
  assert (Host.open_readlines h1 "summary.md" = inr example_A_lines) as H1
    by (vm_compute; reflexivity).
  assert (Host.open_readlines h2 "notes/log.md" = inr example_A_lines) as H2
    by (vm_compute; reflexivity).
  assert (Host.raised r1 = None) as Hr1 by (vm_compute; reflexivity).
  assert (Host.raised r2 = None) as Hr2 by (vm_compute; reflexivity).
  split; [exact H1|]. split; [exact H2|]. split; [exact Hr1|].
  split; [exact Hr2|].
  exact (proj1 (completed_runs_depend_on_lines_only h1 h2 "summary.md"
                  "notes/log.md" (Some "summary_cleaned.md") None
                  example_A_lines H1 H2) Hr1 Hr2).
Defined.

(** C10. A final line that is exactly the marker, with nothing after it and
    no terminator (["Bash"] for Variant A, ["⎿"] for Variant B), possibly
    after whitespace, is removed by the respective script, [startswith]
    accepting a remainder equal to the prefix: alone, and as the last of any
    line sequence, where Variant A counts it as a Bash line. *)
Theorem bare_marker_removed (ws : str) (lines : list str) :
  Forall (λ c, isspace c = true) ws →
  CleanSummary.filter_lines [ws ++ lit "Bash"] = CleanSummary.LoopState [] 0 1
  ∧ RemoveBracketLines.filter_lines [ws ++ [0x23BF%N]]
    = RemoveBracketLines.LoopState [] 1
  ∧ CleanSummary.filter_lines (lines ++ [ws ++ lit "Bash"])
    = (let st := CleanSummary.filter_lines lines in
       CleanSummary.LoopState (CleanSummary.cleaned_lines st)
         (CleanSummary.empty_removed st) (CleanSummary.bash_removed st + 1))
  ∧ RemoveBracketLines.filter_lines (lines ++ [ws ++ [0x23BF%N]])
    = (let st := RemoveBracketLines.filter_lines lines in
       RemoveBracketLines.LoopState (RemoveBracketLines.cleaned_lines st)
         (RemoveBracketLines.removed_count st + 1)).
Proof.
  intros Hws.
  assert (bool_decide (strip (ws ++ lit "Bash") = []) = false) as Hnb.
  { apply strip_not_blank. intros Hb.
    apply Forall_app in Hb as [_ Hb]. by inversion Hb. }
  assert (startswith (lstrip (ws ++ lit "Bash")) (lit "Bash") = true) as HA.
  { apply lstrip_startswith_Bash. exists ws, []. by rewrite app_nil_r. }
  assert (startswith (lstrip (ws ++ [0x23BF%N])) RemoveBracketLines.bracket
          = true) as HB.
  { apply lstrip_startswith_bracket. exists ws, []. by rewrite app_nil_r. }
  split; [|split; [|split]].
  - by rewrite filter_line_A, Hnb, HA.
  - by rewrite filter_line_B, HB.
  - unfold CleanSummary.filter_lines. rewrite fold_left_app.
    cbn [fold_left]. unfold CleanSummary.loop_body at 1.
    by rewrite Hnb, HA.
  - unfold RemoveBracketLines.filter_lines. rewrite fold_left_app.
    cbn [fold_left]. unfold RemoveBracketLines.loop_body at 1.
    by rewrite HB.
Qed.

Lemma bare_marker_removed_witness :
  Forall (λ c, isspace c = true) (lit "  ")
  ∧ CleanSummary.filter_lines [lit "  " ++ lit "Bash"]
    = CleanSummary.LoopState [] 0 1
  ∧ RemoveBracketLines.filter_lines [lit "  " ++ [0x23BF%N]]
    = RemoveBracketLines.LoopState [] 1
  ∧ CleanSummary.filter_lines ([lit "ok" ++ [LF]] ++ [lit "  " ++ lit "Bash"])
    = CleanSummary.LoopState [lit "ok" ++ [LF]] 0 1
  ∧ RemoveBracketLines.filter_lines
      ([lit "ok" ++ [LF]] ++ [lit "  " ++ [0x23BF%N]])
    = RemoveBracketLines.LoopState [lit "ok" ++ [LF]] 1.
Proof.
  assert (Forall (λ c, isspace c = true) (lit "  ")) as Hws
    by (repeat constructor).
  split; [exact Hws|].
  exact (bare_marker_removed (lit "  ") [lit "ok" ++ [LF]] Hws).
Defined.

(** ** Further facts used below *)

Section MoreLoops.

Implicit Types (line : str) (lines : list str) (P Q : str → bool).

Lemma kept_app P lines lines' :
  Spec.kept P (lines ++ lines') = Spec.kept P lines ++ Spec.kept P lines'.
Proof. unfold Spec.kept. apply List.filter_app. Qed.

Lemma removed_app P lines lines' :
  Spec.removed P (lines ++ lines')
  = Spec.removed P lines + Spec.removed P lines'.
Proof. unfold Spec.removed. by rewrite List.filter_app, length_app. Qed.

Lemma kept_comm P Q lines :
  Spec.kept P (Spec.kept Q lines) = Spec.kept Q (Spec.kept P lines).
Proof.
  induction lines as [|line lines IH]; [done|].
  rewrite !kept_cons.
  destruct (P line) eqn:HP, (Q line) eqn:HQ;
    rewrite ?kept_cons, ?HP, ?HQ, ?IH; done.
Qed.

(** What one predicate matches and the other never does is still all there
    after the other has filtered. *)
Lemma removed_kept_disjoint P Q lines :
  (∀ line, Q line = true → P line = false) →
  Spec.removed Q (Spec.kept P lines) = Spec.removed Q lines.
Proof.
  intros HQP. induction lines as [|line lines IH]; [done|].
  rewrite kept_cons, removed_cons.
  destruct (Q line) eqn:HQ.
  - rewrite (HQP _ HQ), removed_cons, HQ. by rewrite IH.
  - destruct (P line); [done|]. by rewrite removed_cons, HQ.
Qed.

Lemma removed_0_kept P lines :
  Spec.removed P lines = 0 → Spec.kept P lines = lines.
Proof.
  induction lines as [|line lines IH]; [done|].
  rewrite removed_cons, kept_cons.
  destruct (P line); [done|]. intros H. by rewrite IH.
Qed.

Lemma kept_all_removed_0 P lines :
  Spec.kept P lines = lines → Spec.removed P lines = 0.
Proof.
  intros H. pose proof (kept_removed_length P lines) as Hlen.
  rewrite H in Hlen. lia.
Qed.

Lemma kept_text_length P lines :
  length (writelines (Spec.kept P lines)) ≤ length (writelines lines).
Proof.
  unfold writelines. induction lines as [|line lines IH]; [done|].
  rewrite kept_cons. destruct (P line); simpl; rewrite ?length_app; lia.
Qed.

Lemma kept_length P lines : length (Spec.kept P lines) ≤ length lines.
Proof. pose proof (kept_removed_length P lines). lia. Qed.

(** No line is matched by both scripts. *)
Lemma predicate_A_not_B line :
  Spec.predicate_A line = true → Spec.predicate_B line = false.
Proof.
  unfold Spec.predicate_A, Spec.predicate_B.
  intros [Hb|Hp]%orb_true_iff.
  - apply strip_blank in Hb.
    by apply (blank_no_token line [0x23BF%N]).
  - apply startswith_iff in Hp as [r Hr]. rewrite Hr.
    reflexivity.
Qed.

Lemma predicate_B_not_A line :
  Spec.predicate_B line = true → Spec.predicate_A line = false.
Proof.
  intros HB. destruct (Spec.predicate_A line) eqn:HA; [|done].
  apply predicate_A_not_B in HA. congruence.
Qed.

Lemma reason_empty_not_B line :
  Spec.reason_empty line = true → Spec.predicate_B line = false.
Proof. intros H. by apply predicate_A_not_B, reason_empty_A. Qed.

Lemma reason_bash_not_B line :
  Spec.reason_bash line = true → Spec.predicate_B line = false.
Proof. intros H. by apply predicate_A_not_B, reason_bash_A. Qed.

End MoreLoops.

Section Paths.

Local Open Scope string_scope.

Implicit Types (a b p : string).

Lemma append_cons c a b : String c a ++ b = String c (a ++ b).
Proof. reflexivity. Qed.

Lemma append_cancel_l p a b : p ++ a = p ++ b → a = b.
Proof.
  induction p as [|c p IH]; [done|].
  rewrite !append_cons. intros [= H]. by apply IH.
Qed.

Lemma append_sep_assoc a b :
  a ++ String OsPath.sep b = (a ++ String OsPath.sep "") ++ b.
Proof.
  induction a as [|c a IH]; [done|]. rewrite !append_cons. by f_equal.
Qed.

(** Joining a relative name puts it after a prefix the directory fixes. *)
Lemma join_relative a :
  ∃ pre, ∀ b, OsPath.startswith_sep b = false → OsPath.join a b = pre ++ b.
Proof.
  destruct (String.eqb a "" || OsPath.endswith_sep a) eqn:Ha.
  - exists a. intros b Hb. unfold OsPath.join. by rewrite Hb, Ha.
  - exists (a ++ String OsPath.sep ""). intros b Hb.
    unfold OsPath.join. rewrite Hb, Ha. apply append_sep_assoc.
Qed.

Lemma join_summary_distinct a :
  OsPath.join a "summary.md" ≠ OsPath.join a "summary_cleaned.md".
Proof.
  destruct (join_relative a) as [pre Hpre].
  rewrite !Hpre by done. intros H. by apply append_cancel_l in H.
Qed.

Lemma input_output_distinct_A script_file :
  CleanSummary.input_file script_file ≠ CleanSummary.output_file script_file.
Proof. apply join_summary_distinct. Qed.

Lemma input_output_distinct_B script_file :
  RemoveBracketLines.input_file script_file
  ≠ RemoveBracketLines.output_file script_file.
Proof. apply join_summary_distinct. Qed.

End Paths.

Section MoreFiles.

Implicit Types (text : str) (lines : list str) (fs : filesystem).

Lemma clean_summary_file_A_some fs input_path output_path text :
  fs !! input_path = Some text →
  CleanSummary.clean_summary_file input_path output_path fs
  = inr (<[default input_path output_path :=
             writelines (Spec.kept Spec.predicate_A (readlines text))]> fs,
         CleanSummary.print_summary
           (len (readlines text))
           (Spec.removed Spec.reason_empty (readlines text))
           (Spec.removed Spec.reason_bash (readlines text))
           (len (Spec.kept Spec.predicate_A (readlines text)))
           (default input_path output_path)).
Proof.
  intros H. rewrite <- (insert_id fs input_path text H) at 1.
  rewrite clean_summary_file_A. by rewrite (insert_id fs input_path text H).
Qed.

Lemma clean_summary_file_B_some fs input_path output_path text :
  fs !! input_path = Some text →
  RemoveBracketLines.clean_summary_file input_path output_path fs
  = inr (<[default input_path output_path :=
             writelines (Spec.kept Spec.predicate_B (readlines text))]> fs,
         RemoveBracketLines.print_summary
           (len (readlines text))
           (Spec.removed Spec.predicate_B (readlines text))
           (len (Spec.kept Spec.predicate_B (readlines text)))
           (default input_path output_path)).
Proof.
  intros H. rewrite <- (insert_id fs input_path text H) at 1.
  rewrite clean_summary_file_B. by rewrite (insert_id fs input_path text H).
Qed.

Lemma readlines_kept P text :
  readlines (writelines (Spec.kept P (readlines text)))
  = Spec.kept P (readlines text).
Proof. apply readlines_writelines, file_lines_kept, readlines_file_lines. Qed.

(** The kept lines spell the whole text only when every line is kept. *)
Lemma writelines_kept_same P text :
  writelines (Spec.kept P (readlines text)) = text
  ↔ Spec.removed P (readlines text) = 0.
Proof.
  split.
  - intros H. apply kept_all_removed_0.
    rewrite <- (readlines_kept P text). by rewrite H.
  - intros H. rewrite (removed_0_kept _ _ H). apply writelines_readlines.
Qed.

End MoreFiles.

(** ** More on the two functions and on the scripts as run *)

Section Terminal.

Local Open Scope string_scope.

Implicit Types (a b line : string) (h : Host.host) (lines : list str).

Lemma strict_ascii_app a b :
  Host.strict_ascii (a ++ b) = Host.strict_ascii a && Host.strict_ascii b.
Proof.
  induction a as [|c a IH]; [done|].
  rewrite append_cons. cbn [Host.strict_ascii]. by rewrite IH, andb_assoc.
Qed.

Lemma strict_ascii_digit (x : N) :
  (N_of_ascii (pretty_N_char x) <? 128)%N = true.
Proof. unfold pretty_N_char. by repeat case_match. Qed.

Lemma strict_ascii_pretty_N_go (x : N) line :
  Host.strict_ascii line = true →
  Host.strict_ascii (pretty_N_go x line) = true.
Proof.
  revert line. induction (N.lt_wf_0 x) as [x _ IH]; intros line Hline.
  destruct (decide (x = 0%N)) as [->|Hx].
  - by rewrite pretty_N_go_0.
  - rewrite pretty_N_go_step by lia. apply IH.
    + apply N.div_lt; lia.
    + cbn [Host.strict_ascii]. by rewrite strict_ascii_digit.
Qed.

(** A formatted count is made of digits. *)
Lemma strict_ascii_fmt (n : nat) : Host.strict_ascii (fmt n) = true.
Proof.
  unfold fmt, pretty, pretty_nat, pretty, pretty_N.
  destruct (decide (N.of_nat n = 0%N)); [done|].
  by apply strict_ascii_pretty_N_go.
Qed.

Lemma strict_ascii_label a (n : nat) :
  Host.strict_ascii a = true → Host.strict_ascii (a ++ fmt n) = true.
Proof. intros Ha. by rewrite strict_ascii_app, Ha, strict_ascii_fmt. Qed.

Lemma print_lines_ext (f g : string → bool) (printing : list string) :
  (∀ line, f line = g line) →
  Host.print_lines f printing = Host.print_lines g printing.
Proof.
  intros Hfg. induction printing as [|line printing IH]; [done|].
  cbn [Host.print_lines]. by rewrite Hfg, IH.
Qed.

(** Variant B on a terminal that encodes ASCII only: two lines, then the
    line with the glyph. *)
Lemma print_summary_B_ascii (original_count removed_count final_count : nat)
    (output_path : string) :
  Host.print_lines Host.strict_ascii
    (RemoveBracketLines.print_summary original_count removed_count
       final_count output_path)
  = ([ "Cleaning complete!"; "Original lines: " ++ fmt original_count ],
     Some Host.UnicodeEncodeError).
Proof.
  unfold RemoveBracketLines.print_summary.
  apply (print_lines_stops Host.strict_ascii
           [ "Cleaning complete!"; "Original lines: " ++ fmt original_count ]).
  - cbn [forallb]. by rewrite strict_ascii_label.
  - by rewrite strict_ascii_app.
Qed.

(** Variant A there: all of it when the output path is ASCII, else all but
    the last line. *)
Lemma print_summary_A_ascii
    (original_count empty_removed bash_removed final_count : nat)
    (output_path : string) :
  Host.print_lines Host.strict_ascii
    (CleanSummary.print_summary original_count empty_removed bash_removed
       final_count output_path)
  = if Host.strict_ascii output_path then
      (CleanSummary.print_summary original_count empty_removed bash_removed
         final_count output_path, None)
    else
      ([ "Cleaning complete!";
         "Original lines: " ++ fmt original_count;
         "Empty lines removed: " ++ fmt empty_removed;
         "Lines starting with 'Bash' removed: " ++ fmt bash_removed;
         "Final lines: " ++ fmt final_count ],
       Some Host.UnicodeEncodeError).
Proof.
  unfold CleanSummary.print_summary.
  destruct (Host.strict_ascii output_path) eqn:Ho.
  - apply print_lines_all. cbn [forallb].
    rewrite !strict_ascii_label by done. by rewrite strict_ascii_app, Ho.
  - apply (print_lines_stops Host.strict_ascii
             [ "Cleaning complete!";
               "Original lines: " ++ fmt original_count;
               "Empty lines removed: " ++ fmt empty_removed;
               "Lines starting with 'Bash' removed: " ++ fmt bash_removed;
               "Final lines: " ++ fmt final_count ] []).
    + cbn [forallb]. by rewrite !strict_ascii_label.
    + by rewrite strict_ascii_app, Ho.
Qed.

End Terminal.

(** X1. Where a call fails decides what it leaves behind. If the input
    cannot be read (refused, absent, or no UTF-8), or the output cannot be
    opened, that error is raised with the disk as it was and nothing
    printed; the read comes first, so an unreadable input never costs the
    output file. A failing print comes after the write: on a terminal that
    encodes ASCII only, Variant B never completes; it writes the output,
    prints two lines and raises at the line holding the glyph; Variant A
    completes there exactly when the output path is ASCII, and otherwise
    fails at the last line. *)
Theorem failing_calls_and_the_disk
    (h : Host.host) (input_path : string) (output_path : option string) :
  let out := default input_path output_path in
  let rA := CleanSummaryHost.clean_summary_file h input_path output_path in
  let rB := RemoveBracketLinesHost.clean_summary_file h input_path output_path in
  (∀ e, Host.open_readlines h input_path = inl e →
     rA = Host.Outcome (Host.disk h) [] (Some e)
     ∧ rB = Host.Outcome (Host.disk h) [] (Some e))
  ∧ (∀ lines kind,
       Host.open_readlines h input_path = inr lines →
       Host.refuses h Host.Write out = Some kind →
       rA = Host.Outcome (Host.disk h) [] (Some (Host.OSError kind out))
       ∧ rB = Host.Outcome (Host.disk h) [] (Some (Host.OSError kind out)))
  ∧ (∀ lines,
       Host.open_readlines h input_path = inr lines →
       Host.refuses h Host.Write out = None →
       (∀ line, Host.stdout_accepts h line = Host.strict_ascii line) →
       let a := CleanSummary.filter_lines lines in
       let b := RemoveBracketLines.filter_lines lines in
       rB = Host.Outcome
              (<[out := Host.Utf8
                          (writelines (RemoveBracketLines.cleaned_lines b))]>
                 (Host.disk h))
              [ "Cleaning complete!"; "Original lines: " +:+ fmt (len lines) ]
              (Some Host.UnicodeEncodeError)
       ∧ Host.disk_after rA
         = <[out := Host.Utf8 (writelines (CleanSummary.cleaned_lines a))]>
             (Host.disk h)
       ∧ (Host.raised rA = None ↔ Host.strict_ascii out = true)
       ∧ (Host.strict_ascii out = false →
          Host.raised rA = Some Host.UnicodeEncodeError
          ∧ length (Host.printed rA) = 5)).
Proof.
  intros out rA rB. split; [|split].
  - intros e He. subst rA rB.
    unfold CleanSummaryHost.clean_summary_file,
      RemoveBracketLinesHost.clean_summary_file. by rewrite He.
  - intros lines kind Hread Hw. subst rA rB.
    rewrite (host_run_A _ _ _ _ Hread), (host_run_B _ _ _ _ Hread).
    fold out. by rewrite Hw.
  - intros lines Hread Hw Hacc a b. subst rA rB a b.
    rewrite (host_run_A _ _ _ _ Hread), (host_run_B _ _ _ _ Hread).
    fold out. rewrite Hw, filter_lines_A, filter_lines_B. cbv zeta.
    rewrite !(print_lines_ext _ _ _ Hacc).
    rewrite print_summary_B_ascii, print_summary_A_ascii.
    cbn [RemoveBracketLines.cleaned_lines CleanSummary.cleaned_lines].
    split; [done|]. split; [by destruct (Host.strict_ascii out)|].
    destruct (Host.strict_ascii out); cbn [fst snd Host.raised Host.printed];
      split; try done.
Qed.

Lemma failing_calls_and_the_disk_witness :
  let h :=
    example_ascii_host
      (<["summary.md"%string := Host.Utf8 example_B_text]>
         {[ "summary.bin"%string := Host.NotUtf8 ]}) in
  Host.open_readlines h "summary.bin" = inl Host.UnicodeDecodeError
  ∧ RemoveBracketLinesHost.clean_summary_file h "summary.bin" None
    = Host.Outcome (Host.disk h) [] (Some Host.UnicodeDecodeError)
  ∧ Host.open_readlines h "summary.md" = inr example_B_lines
  ∧ Host.refuses h Host.Write "summary_cleaned.md" = None
  ∧ RemoveBracketLinesHost.clean_summary_file h "summary.md"
      (Some "summary_cleaned.md")
    = Host.Outcome
        (<["summary_cleaned.md"%string
            := Host.Utf8
                 (writelines
                    (RemoveBracketLines.cleaned_lines
                       (RemoveBracketLines.filter_lines example_B_lines)))]>
           (Host.disk h))
        [ "Cleaning complete!"; "Original lines: " +:+ fmt (len example_B_lines) ]
        (Some Host.UnicodeEncodeError).
Proof.
  intros h.
  assert (Host.open_readlines h "summary.bin" = inl Host.UnicodeDecodeError)
    as Hbin by (vm_compute; reflexivity).
  assert (Host.open_readlines h "summary.md" = inr example_B_lines) as Hmd
    by (vm_compute; reflexivity).
  assert (Host.refuses h Host.Write "summary_cleaned.md" = None) as Hw
    by reflexivity.
  split; [exact Hbin|].
  split; [exact (proj2 (proj1 (failing_calls_and_the_disk h "summary.bin" None)
                          _ Hbin))|].
  split; [exact Hmd|]. split; [exact Hw|].
  exact (proj1 (proj2 (proj2 (failing_calls_and_the_disk h "summary.md"
                                (Some "summary_cleaned.md")))
                  example_B_lines Hmd Hw (λ _, eq_refl))).
Defined.

(** X2. Whichever script ran, a successful call changes no file but the one
    at its output path (the input path when none is given): every other
    path holds afterwards what it held before. *)
Theorem only_output_path_changes
    (fs fs' : filesystem) (input_path : string) (output_path : option string)
    (printed : list string) (p : string) :
  CleanSummary.clean_summary_file input_path output_path fs = inr (fs', printed)
  ∨ RemoveBracketLines.clean_summary_file input_path output_path fs
    = inr (fs', printed) →
  p ≠ default input_path output_path →
  fs' !! p = fs !! p.
Proof.
  intros Hrun Hp.
  destruct (fs !! input_path) as [text|] eqn:Hin.
  - destruct Hrun as [Hrun|Hrun].
    + rewrite (clean_summary_file_A_some _ _ _ _ Hin) in Hrun.
      injection Hrun as <- _. by apply lookup_insert_ne.
    + rewrite (clean_summary_file_B_some _ _ _ _ Hin) in Hrun.
      injection Hrun as <- _. by apply lookup_insert_ne.
  - destruct Hrun as [Hrun|Hrun].
    + by rewrite clean_summary_file_A_missing in Hrun.
    + by rewrite clean_summary_file_B_missing in Hrun.
Qed.

Lemma only_output_path_changes_witness :
  let fs : filesystem :=
    <["summary.md" := example_A_text]> {[ "notes.txt" := lit "Bash" ]} in
  let fs' : filesystem := <["summary_cleaned.md" := lit "ok" ++ [LF]]> fs in
  CleanSummary.clean_summary_file "summary.md" (Some "summary_cleaned.md") fs
  = inr (fs', CleanSummary.print_summary 5 2 2 1 "summary_cleaned.md")
  ∧ "summary.md" ≠ "summary_cleaned.md"
  ∧ fs' !! "summary.md" = fs !! "summary.md".
Proof.
  intros fs fs'.
  assert (CleanSummary.clean_summary_file "summary.md"
            (Some "summary_cleaned.md") fs
          = inr (fs', CleanSummary.print_summary 5 2 2 1 "summary_cleaned.md"))
    as Hrun.
  { vm_compute. reflexivity. }
  assert ("summary.md" ≠ "summary_cleaned.md") as Hne by discriminate.
  split; [exact Hrun|]. split; [exact Hne|].
  exact (only_output_path_changes fs fs' "summary.md"
           (Some "summary_cleaned.md") _ "summary.md" (or_introl Hrun) Hne).
Defined.

Section HostAndTexts.

Implicit Types (h : Host.host) (raw : str).

(** On a host that refuses nothing, with a terminal that encodes everything,
    a call on a decodable input is the call on the texts of the files. *)
Lemma host_as_texts_A h input_path output_path raw :
  (∀ m path, Host.refuses h m path = None) →
  (∀ line, Host.stdout_accepts h line = true) →
  Host.disk h !! input_path = Some (Host.Utf8 raw) →
  let r := CleanSummaryHost.clean_summary_file h input_path output_path in
  Host.raised r = None
  ∧ CleanSummary.clean_summary_file input_path output_path
      (omap Host.text_of (Host.disk h))
    = inr (omap Host.text_of (Host.disk_after r), Host.printed r).
Proof.
  intros Href Hacc Hin r. subst r.
  assert (Host.open_readlines h input_path
          = inr (readlines (Host.universal_newlines raw))) as Hread.
  { unfold Host.open_readlines. by rewrite Href, Hin. }
  rewrite (host_run_A _ _ _ _ Hread), Href. cbv zeta.
  rewrite print_lines_all
    by (apply forallb_forall; intros line _; apply Hacc).
  cbn [fst snd Host.raised Host.disk_after Host.printed]. split; [done|].
  rewrite (clean_summary_file_A_some _ _ _ (Host.universal_newlines raw))
    by (by rewrite lookup_omap, Hin).
  do 2 f_equal. symmetry. apply omap_insert_Some. cbn [Host.text_of].
  f_equal. apply universal_newlines_id_iff, written_no_CR.
Qed.

Lemma host_as_texts_B h input_path output_path raw :
  (∀ m path, Host.refuses h m path = None) →
  (∀ line, Host.stdout_accepts h line = true) →
  Host.disk h !! input_path = Some (Host.Utf8 raw) →
  let r := RemoveBracketLinesHost.clean_summary_file h input_path output_path in
  Host.raised r = None
  ∧ RemoveBracketLines.clean_summary_file input_path output_path
      (omap Host.text_of (Host.disk h))
    = inr (omap Host.text_of (Host.disk_after r), Host.printed r).
Proof.
  intros Href Hacc Hin r. subst r.
  assert (Host.open_readlines h input_path
          = inr (readlines (Host.universal_newlines raw))) as Hread.
  { unfold Host.open_readlines. by rewrite Href, Hin. }
  rewrite (host_run_B _ _ _ _ Hread), Href. cbv zeta.
  rewrite print_lines_all
    by (apply forallb_forall; intros line _; apply Hacc).
  cbn [fst snd Host.raised Host.disk_after Host.printed]. split; [done|].
  rewrite (clean_summary_file_B_some _ _ _ (Host.universal_newlines raw))
    by (by rewrite lookup_omap, Hin).
  do 2 f_equal. symmetry. apply omap_insert_Some. cbn [Host.text_of].
  f_equal. apply universal_newlines_id_iff, written_no_CR.
Qed.

End HostAndTexts.

(** X3. Called in place on a readable UTF-8 file it may rewrite, a script
    leaves the disk exactly as it was if and only if it removed no line and
    the file had no carriage return: line ends are read as line feeds and
    written back as such, so a file with [\r\n] line ends is rewritten even
    when nothing is removed. *)
Theorem in_place_unchanged_iff
    (h : Host.host) (input_path : string) (raw : str) :
  Host.refuses h Host.Read input_path = None →
  Host.refuses h Host.Write input_path = None →
  Host.disk h !! input_path = Some (Host.Utf8 raw) →
  let lines := readlines (Host.universal_newlines raw) in
  (Host.disk_after (CleanSummaryHost.clean_summary_file h input_path None)
   = Host.disk h
   ↔ Spec.removed Spec.predicate_A lines = 0 ∧ Host.CR ∉ raw)
  ∧ (Host.disk_after
       (RemoveBracketLinesHost.clean_summary_file h input_path None)
     = Host.disk h
     ↔ Spec.removed Spec.predicate_B lines = 0 ∧ Host.CR ∉ raw).
Proof.
  intros Hr Hw Hin lines.
  assert (Host.open_readlines h input_path = inr lines) as Hread.
  { unfold Host.open_readlines. by rewrite Hr, Hin. }
  assert (∀ P,
            <[input_path := Host.Utf8 (writelines (Spec.kept P lines))]>
              (Host.disk h) = Host.disk h
            ↔ Spec.removed P lines = 0 ∧ Host.CR ∉ raw) as Hiff.
  { intros P. split.
    - intros H.
      apply (f_equal (λ d : gmap string Host.content, d !! input_path)) in H.
      rewrite lookup_insert_eq, Hin in H. injection H as H.
      assert (Host.CR ∉ raw) as Hcr.
      { rewrite <- H. apply written_no_CR. }
      split; [|done].
      pose proof (proj2 (universal_newlines_id_iff raw) Hcr) as Hun.
      subst lines. rewrite Hun in *. by apply writelines_kept_same.
    - intros [H0 Hcr]. apply insert_id. rewrite Hin. do 2 f_equal.
      pose proof (proj2 (universal_newlines_id_iff raw) Hcr) as Hun.
      subst lines. rewrite Hun in *. symmetry.
      by apply writelines_kept_same. }
  rewrite (host_run_A _ _ _ _ Hread), (host_run_B _ _ _ _ Hread).
  cbn [default]. rewrite Hw. cbv zeta. cbn [Host.disk_after].
  split; apply Hiff.
Qed.

Lemma in_place_unchanged_iff_witness :
  let h :=
    example_host
      {[ "summary.md"%string := Host.Utf8 (lit "ok" ++ [Host.CR; LF]) ]} in
  Host.refuses h Host.Read "summary.md" = None
  ∧ Host.refuses h Host.Write "summary.md" = None
  ∧ Host.disk h !! "summary.md"%string
    = Some (Host.Utf8 (lit "ok" ++ [Host.CR; LF]))
  ∧ (Host.disk_after
       (RemoveBracketLinesHost.clean_summary_file h "summary.md" None)
     = Host.disk h
     ↔ Spec.removed Spec.predicate_B
         (readlines (Host.universal_newlines (lit "ok" ++ [Host.CR; LF]))) = 0
       ∧ Host.CR ∉ lit "ok" ++ [Host.CR; LF]).
Proof.
  intros h.
  assert (Host.disk h !! "summary.md"%string
          = Some (Host.Utf8 (lit "ok" ++ [Host.CR; LF]))) as Hin
    by (vm_compute; reflexivity).
  split; [reflexivity|]. split; [reflexivity|]. split; [exact Hin|].
  exact (proj2 (in_place_unchanged_iff h "summary.md"
                  (lit "ok" ++ [Host.CR; LF]) eq_refl eq_refl Hin)).
Defined.

(** X4. The loops work line by line with no memory of earlier lines:
    filtering two inputs one after the other gives the kept lines of the
    first followed by those of the second, and each count is the sum. *)
Theorem filter_lines_app (lines lines' : list str) :
  CleanSummary.filter_lines (lines ++ lines')
  = (let st := CleanSummary.filter_lines lines in
     let st' := CleanSummary.filter_lines lines' in
     CleanSummary.LoopState
       (CleanSummary.cleaned_lines st ++ CleanSummary.cleaned_lines st')
       (CleanSummary.empty_removed st + CleanSummary.empty_removed st')
       (CleanSummary.bash_removed st + CleanSummary.bash_removed st'))
  ∧ RemoveBracketLines.filter_lines (lines ++ lines')
    = (let st := RemoveBracketLines.filter_lines lines in
       let st' := RemoveBracketLines.filter_lines lines' in
       RemoveBracketLines.LoopState
         (RemoveBracketLines.cleaned_lines st
            ++ RemoveBracketLines.cleaned_lines st')
         (RemoveBracketLines.removed_count st
            + RemoveBracketLines.removed_count st')).
Proof.
  rewrite !filter_lines_A, !filter_lines_B.
  cbn [CleanSummary.cleaned_lines CleanSummary.empty_removed
       CleanSummary.bash_removed RemoveBracketLines.cleaned_lines
       RemoveBracketLines.removed_count].
  by rewrite !kept_app, !removed_app.
Qed.

(** X5. No line is removed by both scripts, so they do not disturb each
    other's counts: what one script counts on the output of the other is
    what it counts on the original input, and the lines left after both are
    the same in either order. *)
Theorem scripts_remove_disjoint_lines (lines : list str) :
  let a := CleanSummary.filter_lines lines in
  let b := RemoveBracketLines.filter_lines lines in
  let ab := RemoveBracketLines.filter_lines (CleanSummary.cleaned_lines a) in
  let ba := CleanSummary.filter_lines (RemoveBracketLines.cleaned_lines b) in
  (∀ line, Spec.predicate_A line && Spec.predicate_B line = false)
  ∧ RemoveBracketLines.removed_count ab = RemoveBracketLines.removed_count b
  ∧ CleanSummary.empty_removed ba = CleanSummary.empty_removed a
  ∧ CleanSummary.bash_removed ba = CleanSummary.bash_removed a
  ∧ RemoveBracketLines.cleaned_lines ab = CleanSummary.cleaned_lines ba
  ∧ len (CleanSummary.cleaned_lines ba)
      + CleanSummary.empty_removed a + CleanSummary.bash_removed a
      + RemoveBracketLines.removed_count b
    = len lines.
Proof.
  intros a b ab ba. subst a b ab ba.
  rewrite !filter_lines_A, !filter_lines_B.
  cbn [CleanSummary.cleaned_lines CleanSummary.empty_removed
       CleanSummary.bash_removed RemoveBracketLines.cleaned_lines
       RemoveBracketLines.removed_count].
  rewrite ?filter_lines_A, ?filter_lines_B.
  cbn [CleanSummary.cleaned_lines CleanSummary.empty_removed
       CleanSummary.bash_removed RemoveBracketLines.cleaned_lines
       RemoveBracketLines.removed_count].
  split; [|split; [|split; [|split; [|split]]]].
  - intros line. destruct (Spec.predicate_A line) eqn:HA; [|done].
    by apply predicate_A_not_B.
  - apply removed_kept_disjoint, predicate_B_not_A.
  - apply removed_kept_disjoint. intros line H.
    destruct (Spec.predicate_B line) eqn:HB; [|done].
    apply predicate_B_not_A in HB. apply reason_empty_A in H. congruence.
  - apply removed_kept_disjoint. intros line H.
    destruct (Spec.predicate_B line) eqn:HB; [|done].
    apply predicate_B_not_A in HB. apply reason_bash_A in H. congruence.
  - apply kept_comm.
  - unfold len.
    pose proof (kept_removed_length Spec.predicate_A
                  (Spec.kept Spec.predicate_B lines)) as H1.
    pose proof (kept_removed_length Spec.predicate_B lines) as H2.
    pose proof (removed_A_split (Spec.kept Spec.predicate_B lines)) as H3.
    rewrite (removed_kept_disjoint Spec.predicate_B Spec.reason_empty) in H3.
    2:{ intros line H. destruct (Spec.predicate_B line) eqn:HB; [|done].
        apply predicate_B_not_A in HB. apply reason_empty_A in H.
        congruence. }
    rewrite (removed_kept_disjoint Spec.predicate_B Spec.reason_bash) in H3.
    2:{ intros line H. destruct (Spec.predicate_B line) eqn:HB; [|done].
        apply predicate_B_not_A in HB. apply reason_bash_A in H.
        congruence. }
    lia.
Qed.

(** X6. Run in place one after the other on the same file, the two scripts
    leave the same file system in either order, and the file then holds the
    lines neither script removes. *)
Theorem in_place_scripts_commute
    (fs : filesystem) (input_path : string) (text : str) :
  let fs0 := <[input_path := text]> fs in
  ∃ fsA printedA fsB printedB printedAB printedBA,
    CleanSummary.clean_summary_file input_path None fs0 = inr (fsA, printedA)
    ∧ RemoveBracketLines.clean_summary_file input_path None fs0
      = inr (fsB, printedB)
    ∧ RemoveBracketLines.clean_summary_file input_path None fsA
      = inr (<[input_path :=
                 writelines
                   (List.filter
                      (λ line, negb (Spec.predicate_A line)
                               && negb (Spec.predicate_B line))
                      (readlines text))]> fs,
             printedAB)
    ∧ CleanSummary.clean_summary_file input_path None fsB
      = inr (<[input_path :=
                 writelines
                   (List.filter
                      (λ line, negb (Spec.predicate_A line)
                               && negb (Spec.predicate_B line))
                      (readlines text))]> fs,
             printedBA).
Proof.
  intros fs0.
  assert (∀ lines,
            Spec.kept Spec.predicate_B (Spec.kept Spec.predicate_A lines)
            = List.filter (λ line, negb (Spec.predicate_A line)
                                   && negb (Spec.predicate_B line)) lines)
    as Hboth.
  { intros lines. induction lines as [|line lines IH]; [done|].
    rewrite kept_cons. cbn [List.filter].
    destruct (Spec.predicate_A line) eqn:HA; cbn [negb andb]; [done|].
    rewrite kept_cons.
    destruct (Spec.predicate_B line); cbn [negb]; by rewrite IH. }
  eexists _, _, _, _, _, _.
  split; [apply clean_summary_file_A|].
  split; [apply clean_summary_file_B|].
  cbn [default]. subst fs0. rewrite !insert_insert_eq.
  rewrite clean_summary_file_A, clean_summary_file_B.
  cbn [default]. rewrite !insert_insert_eq, !readlines_kept.
  rewrite (kept_comm Spec.predicate_A Spec.predicate_B), Hboth.
  split; reflexivity.
Qed.

(** X7. A script never makes the file longer: the text it writes has at
    most as many code points, and at most as many lines, as the text it
    read. *)
Theorem output_never_longer
    (fs : filesystem) (input_path : string) (output_path : option string)
    (text : str) :
  let fs0 := <[input_path := text]> fs in
  (∃ written printed,
     CleanSummary.clean_summary_file input_path output_path fs0
     = inr (<[default input_path output_path := written]> fs0, printed)
     ∧ length written ≤ length text
     ∧ len (readlines written) ≤ len (readlines text))
  ∧ (∃ written printed,
       RemoveBracketLines.clean_summary_file input_path output_path fs0
       = inr (<[default input_path output_path := written]> fs0, printed)
       ∧ length written ≤ length text
       ∧ len (readlines written) ≤ len (readlines text)).
Proof.
  intros fs0.
  assert (∀ P, length (writelines (Spec.kept P (readlines text)))
               ≤ length text) as Hlen.
  { intros P. rewrite <- (writelines_readlines text) at 2.
    apply kept_text_length. }
  split.
  - eexists _, _. split; [apply clean_summary_file_A|]. split; [apply Hlen|].
    rewrite readlines_kept. apply kept_length.
  - eexists _, _. split; [apply clean_summary_file_B|]. split; [apply Hlen|].
    rewrite readlines_kept. apply kept_length.
Qed.

Section Scripts.

Implicit Types (script_file : string) (fs : filesystem) (text : str).

Lemma main_A_some script_file fs text :
  fs !! CleanSummary.input_file script_file = Some text →
  CleanSummary.main script_file fs
  = inr (<[CleanSummary.output_file script_file :=
             writelines (Spec.kept Spec.predicate_A (readlines text))]> fs,
         CleanSummary.print_summary
           (len (readlines text))
           (Spec.removed Spec.reason_empty (readlines text))
           (Spec.removed Spec.reason_bash (readlines text))
           (len (Spec.kept Spec.predicate_A (readlines text)))
           (CleanSummary.output_file script_file)).
Proof.
  intros H. unfold CleanSummary.main.
  by rewrite (clean_summary_file_A_some _ _ _ _ H).
Qed.

Lemma main_B_some script_file fs text :
  fs !! RemoveBracketLines.input_file script_file = Some text →
  RemoveBracketLines.main script_file fs
  = inr (<[RemoveBracketLines.output_file script_file :=
             writelines (Spec.kept Spec.predicate_B (readlines text))]> fs,
         RemoveBracketLines.print_summary
           (len (readlines text))
           (Spec.removed Spec.predicate_B (readlines text))
           (len (Spec.kept Spec.predicate_B (readlines text)))
           (RemoveBracketLines.output_file script_file)).
Proof.
  intros H. unfold RemoveBracketLines.main.
  by rewrite (clean_summary_file_B_some _ _ _ _ H).
Qed.

Lemma main_A_missing script_file fs :
  fs !! CleanSummary.input_file script_file = None →
  CleanSummary.main script_file fs
  = inl (FileNotFoundError (CleanSummary.input_file script_file)).
Proof. intros H. by apply clean_summary_file_A_missing. Qed.

Lemma main_B_missing script_file fs :
  fs !! RemoveBracketLines.input_file script_file = None →
  RemoveBracketLines.main script_file fs
  = inl (FileNotFoundError (RemoveBracketLines.input_file script_file)).
Proof. intros H. by apply clean_summary_file_B_missing. Qed.

(** The input survives the write of the output. *)
Lemma lookup_input_after_output script_file fs (written : str) :
  (<[CleanSummary.output_file script_file := written]> fs)
    !! CleanSummary.input_file script_file
  = fs !! CleanSummary.input_file script_file.
Proof.
  apply lookup_insert_ne. intros H.
  by apply (input_output_distinct_A script_file).
Qed.

End Scripts.

(** X8. Run as a script, either file reads [summary.md] beside itself and
    writes [summary_cleaned.md] beside itself, two different paths whatever
    the directory: after a successful run [summary.md] still holds what it
    held, [summary_cleaned.md] exists, and no other file has changed. *)
Theorem main_keeps_summary
    (script_file : string) (fs fs' : filesystem) (printed : list string) :
  CleanSummary.main script_file fs = inr (fs', printed)
  ∨ RemoveBracketLines.main script_file fs = inr (fs', printed) →
  CleanSummary.input_file script_file ≠ CleanSummary.output_file script_file
  ∧ is_Some (fs !! CleanSummary.input_file script_file)
  ∧ fs' !! CleanSummary.input_file script_file
    = fs !! CleanSummary.input_file script_file
  ∧ is_Some (fs' !! CleanSummary.output_file script_file)
  ∧ (∀ p, p ≠ CleanSummary.output_file script_file → fs' !! p = fs !! p).
Proof.
  intros Hrun. split; [apply input_output_distinct_A|].
  destruct (fs !! CleanSummary.input_file script_file) as [text|] eqn:Hin.
  - split; [by eexists|].
    assert (∃ written,
              fs' = <[CleanSummary.output_file script_file := written]> fs)
      as [written ->].
    { destruct Hrun as [Hrun|Hrun].
      - rewrite (main_A_some _ _ _ Hin) in Hrun.
        injection Hrun as <- _. by eexists.
      - rewrite (main_B_some _ _ _ Hin) in Hrun.
        injection Hrun as <- _. by eexists. }
    split; [by rewrite lookup_input_after_output|].
    split; [rewrite lookup_insert_eq; by eexists|].
    intros p Hp. by apply lookup_insert_ne.
  - destruct Hrun as [Hrun|Hrun].
    + by rewrite main_A_missing in Hrun.
    + by rewrite main_B_missing in Hrun.
Qed.

Lemma main_keeps_summary_witness :
  let fs : filesystem := {[ "/repo/summary.md"%string := example_B_text ]} in
  let fs' : filesystem :=
    <["/repo/summary_cleaned.md"%string := lit "normal line" ++ [LF]]> fs in
  RemoveBracketLines.main "/repo/scripts/deprecated/remove_bracket_lines.py" fs
  = inl (FileNotFoundError "/repo/scripts/deprecated/summary.md")
  ∧ RemoveBracketLines.main "/repo/remove_bracket_lines.py" fs
    = inr (fs', RemoveBracketLines.print_summary 3 2 1
                  "/repo/summary_cleaned.md")
  ∧ fs' !! "/repo/summary.md"%string = fs !! "/repo/summary.md"%string.
Proof.
  intros fs fs'.
  assert (RemoveBracketLines.main "/repo/remove_bracket_lines.py" fs
          = inr (fs', RemoveBracketLines.print_summary 3 2 1
                        "/repo/summary_cleaned.md")) as Hrun.
  { vm_compute. reflexivity. }
  split; [vm_compute; reflexivity|]. split; [exact Hrun|].
  exact (proj1 (proj2 (proj2
           (main_keeps_summary "/repo/remove_bracket_lines.py" fs fs' _
              (or_intror Hrun))))).
Defined.

(** X9. Running a script a second time changes nothing more: the second run
    finds [summary.md] as it was, writes the same [summary_cleaned.md] and
    prints the same summary. *)
Theorem main_twice_same
    (script_file : string) (fs : filesystem) (text : str) :
  let fs0 := <[CleanSummary.input_file script_file := text]> fs in
  (∃ fs1 printed,
     CleanSummary.main script_file fs0 = inr (fs1, printed)
     ∧ CleanSummary.main script_file fs1 = inr (fs1, printed))
  ∧ (∃ fs1 printed,
       RemoveBracketLines.main script_file fs0 = inr (fs1, printed)
       ∧ RemoveBracketLines.main script_file fs1 = inr (fs1, printed)).
Proof.
  intros fs0.
  assert (fs0 !! CleanSummary.input_file script_file = Some text) as Hin
    by apply lookup_insert_eq.
  split.
  - eexists _, _. split; [apply (main_A_some _ _ _ Hin)|].
    rewrite (main_A_some _ _ text)
      by (by rewrite lookup_input_after_output).
    by rewrite insert_insert_eq.
  - eexists _, _. split; [apply (main_B_some _ _ _ Hin)|].
    rewrite (main_B_some _ _ text)
      by (by rewrite (lookup_input_after_output script_file)).
    by rewrite insert_insert_eq.
Qed.

(** X10. The two scripts do not chain: put in one directory, each reads
    [summary.md] and overwrites [summary_cleaned.md], so after running one
    and then the other the result is that of the later one alone, run on the
    original files. *)
Theorem later_script_overwrites
    (script_A script_B : string) (fs : filesystem) (text : str) :
  CleanSummary.script_dir script_A = RemoveBracketLines.script_dir script_B →
  let fs0 := <[CleanSummary.input_file script_A := text]> fs in
  ∃ fsA printedA fsB printedB,
    CleanSummary.main script_A fs0 = inr (fsA, printedA)
    ∧ RemoveBracketLines.main script_B fs0 = inr (fsB, printedB)
    ∧ RemoveBracketLines.main script_B fsA = inr (fsB, printedB)
    ∧ CleanSummary.main script_A fsB = inr (fsA, printedA).
Proof.
  intros Hdir fs0.
  assert (RemoveBracketLines.input_file script_B
          = CleanSummary.input_file script_A) as Hi.
  { unfold RemoveBracketLines.input_file, CleanSummary.input_file.
    by rewrite Hdir. }
  assert (RemoveBracketLines.output_file script_B
          = CleanSummary.output_file script_A) as Ho.
  { unfold RemoveBracketLines.output_file, CleanSummary.output_file.
    by rewrite Hdir. }
  assert (fs0 !! CleanSummary.input_file script_A = Some text) as Hin
    by apply lookup_insert_eq.
  assert (fs0 !! RemoveBracketLines.input_file script_B = Some text) as HinB
    by (by rewrite Hi).
  eexists _, _, _, _.
  split; [apply (main_A_some _ _ _ Hin)|].
  split; [apply (main_B_some _ _ _ HinB)|].
  split.
  - rewrite (main_B_some _ _ text)
      by (by rewrite Hi, lookup_input_after_output).
    by rewrite Ho, insert_insert_eq.
  - rewrite (main_A_some _ _ text)
      by (by rewrite Ho, lookup_input_after_output).
    by rewrite Ho, insert_insert_eq.
Qed.

Lemma later_script_overwrites_witness :
  CleanSummary.script_dir "/repo/clean_summary.py"
  = RemoveBracketLines.script_dir "/repo/remove_bracket_lines.py"
  ∧ ∃ fsA printedA fsB printedB,
      CleanSummary.main "/repo/clean_summary.py"
        (<[CleanSummary.input_file "/repo/clean_summary.py"
            := example_A_text]> ∅) = inr (fsA, printedA)
      ∧ RemoveBracketLines.main "/repo/remove_bracket_lines.py"
          (<[CleanSummary.input_file "/repo/clean_summary.py"
              := example_A_text]> ∅) = inr (fsB, printedB)
      ∧ RemoveBracketLines.main "/repo/remove_bracket_lines.py" fsA
        = inr (fsB, printedB)
      ∧ CleanSummary.main "/repo/clean_summary.py" fsB = inr (fsA, printedA).
Proof.
  split; [reflexivity|].
  apply (later_script_overwrites "/repo/clean_summary.py"
           "/repo/remove_bracket_lines.py" ∅ example_A_text).
  reflexivity.
Defined.
